(** * FarmView AI: the analysis endpoint, its configuration and its contracts

    A shallow embedding of [src/config.py] and of the request handlers of
    [src/main.py], together with the contracts of the two computational
    collaborators the handler calls ([ndvi_processor], [fintech_integration]).

    Conventions.
    - Python [float] values are modelled by rationals [Q]; a NaN is an
      explicit [None] where the code can meet one.  Truthiness of a float is
      "different from zero", of an [Optional] "not [None] and truthy".
    - Python exceptions are values of [Py.Exc]; a handler is a function from a
      world to an outcome and a new world.
    - The classes imported by [main.py] whose modules are outside the
      repository snapshot (Sentinel Hub client, NDVI processor, visualisation,
      PDF generator, claim estimator, insurance webhook, MongoDB driver) are
      the fields of the record [Collab]: each call either raises or returns. *)

From Stdlib Require Import ZArith QArith Qminmax Lqa Ascii String.
From Stdlib.Strings Require Import Byte.
From stdpp Require Import gmap strings list fin_maps.

Local Open Scope string_scope.

(** ** Python values and exceptions *)

Module Py.

(** The exceptions the handlers can meet.  All of them derive from
    [Exception], so a bare [except Exception] catches each one. *)
Inductive Exc : Type :=
| HTTPException (status_code : Z) (detail : Detail)
| NameError (name : string)
| FileNotFoundError (path : string)
| Raised (by_whom : string)   (* an exception coming out of a collaborator *)
with Detail : Type :=
| Text (s : string)
| StrOf (e : Exc).            (* [str(e)] *)

Definition Res (A : Type) : Type := Exc + A.

(** [bool(x)] for a float. *)
Definition truthy (x : Q) : bool := negb (Qeq_bool x 0).

(** [bool(x)] for an [Optional[float]]. *)
Definition truthy_opt (x : option Q) : bool :=
  match x with
  | None => false
  | Some v => truthy v
  end.

(** [Path(p).name]: what follows the last separator. *)
Fixpoint name_from (acc p : string) : string :=
  match p with
  | EmptyString => acc
  | String c rest =>
      if Ascii.eqb c "/"%char then name_from "" rest
      else name_from (acc +:+ String c "") rest
  end.

Definition path_name (p : string) : string := name_from "" p.

(** [dir / leaf] for a relative leaf. *)
Definition joinpath (dir leaf : string) : string := dir +:+ "/" +:+ leaf.

End Py.

(** ** [config.py] *)

Module Config.

Record Settings : Type := {
  APP_NAME : string;
  APP_VERSION : string;
  APP_HOST : string;
  MONGODB_URI : option string;
  MONGODB_DB_NAME : string;
  INSURANCE_WEBHOOK_URL : option string;
  NDVI_DAMAGE_THRESHOLD : Q;
  NDVI_SEVERE_DAMAGE_THRESHOLD : Q;
  BASE_DIR : string;
  TEMP_DIR : string;
  REPORTS_DIR : string;
  STATIC_DIR : string
}.

(** [os.getenv(key, default)] *)
Definition getenv_default (environ : gmap string string)
    (key default : string) : string :=
  match environ !! key with
  | Some v => v
  | None => default
  end.

(** The class body of [Settings], evaluated once when [config] is imported.
    [environ] is the process environment, [base] is [Path(__file__).parent]. *)
Definition load (environ : gmap string string) (base : string) : Settings :=
  {| APP_NAME := "FarmView AI";
     APP_VERSION := "1.0.0";
     APP_HOST := getenv_default environ "APP_HOST" "0.0.0.0";
     MONGODB_URI := environ !! "MONGODB_URI";
     MONGODB_DB_NAME := getenv_default environ "MONGODB_DB_NAME" "farmview_ai";
     INSURANCE_WEBHOOK_URL := environ !! "INSURANCE_WEBHOOK_URL";
     NDVI_DAMAGE_THRESHOLD := (-0.2)%Q;
     NDVI_SEVERE_DAMAGE_THRESHOLD := (-0.4)%Q;
     BASE_DIR := base;
     TEMP_DIR := Py.joinpath base "temp";
     REPORTS_DIR := Py.joinpath base "reports";
     STATIC_DIR := Py.joinpath base "static" |}.

End Config.

(** ** [main.py]: data exchanged by the handlers *)

Module Main.
Import Py Config.

(** A NaN-aware grid of floats; [None] is NaN. *)
Definition Raster : Type := list (list (option Q)).

(** [class FieldRegistration(BaseModel)] *)
Record FieldRegistration : Type := {
  farmer_id : string;
  crop : string;
  coordinates : list (list Q);
  event_date : option string;
  insured_amount : option Q
}.

(** The dictionary returned by [SentinelHubAPI.get_field_images]. *)
Record Images : Type := {
  current : option (list byte);
  baseline : option (list byte)
}.

Record GeoJSON : Type := {
  gj_type : string;
  gj_coordinates : list (list (list Q))
}.

Record DamageStatistics : Type := {
  damage_percent : Q;
  risk_score : Q
}.

Record AreaStatistics : Type := {
  total_area_ha : Q;
  damaged_area_ha : Q
}.

(** The dictionary returned by [NDVIProcessor.process_field_analysis]. *)
Record AnalysisResults : Type := {
  damage_mask : Raster;
  current_ndvi : Raster;
  baseline_ndvi : Raster;
  damage_statistics : DamageStatistics;
  area_statistics : AreaStatistics
}.

(** The document handed to [FieldModel.create_field]. *)
Module FieldData.
Record t : Type := {
  farmer_id : string;
  crop : string;
  coordinates : list (list Q);
  area_hectares : Q;
  insured_amount : option Q
}.
End FieldData.

(** The document handed to [AnalysisModel.create_analysis]. *)
Module AnalysisData.
Record t : Type := {
  farmer_id : string;
  crop : string;
  coordinates : list (list Q);
  damage_statistics : DamageStatistics;
  area_statistics : AreaStatistics;
  current_mean_ndvi : option Q;
  baseline_mean_ndvi : option Q;
  report_path : string;
  map_path : string;
  estimated_claim : option Q
}.
End AnalysisData.

(** The payload handed to [InsuranceIntegration.send_claim_report]. *)
Module ClaimReport.
Record t : Type := {
  farmer_id : string;
  analysis_id : string;
  damage_percent : Q;
  estimated_claim : option Q;
  report_url : string
}.
End ClaimReport.

(** [class AnalysisResponse(BaseModel)] *)
Module AnalysisResponse.
Record t : Type := {
  analysis_id : string;
  farmer_id : string;
  damage_percent : Q;
  risk_score : Q;
  area_hectares : Q;
  damaged_area_hectares : Q;
  timestamp : string;
  report_url : string;
  map_url : string;
  estimated_claim : option Q
}.
End AnalysisResponse.

(** [class HealthCheck(BaseModel)] *)
Record HealthCheck : Type := {
  status : string;
  version : string;
  hc_timestamp : string
}.

(** What a run leaves behind that an observer outside can see. *)
Inductive Event : Type :=
| Invoke (callee : string)
| Webhook (payload : ClaimReport.t).

(** The collaborators.  Each field is the outcome of the call for the given
    arguments; [clock] renders the [n]-th reading of [datetime.now()]. *)
Record Collab : Type := {
  get_field_images : list (list Q) -> option string -> Res Images;
  calculate_area_hectares : list (list Q) -> Res Q;
  process_field_analysis : string -> string -> GeoJSON -> Res AnalysisResults;
  create_damage_heatmap : Raster -> string -> Res string;
  create_comparison_chart : option Q -> option Q -> string -> Res string;
  create_interactive_map : list (list Q) -> Q -> string -> Res string;
  generate_report :
    AnalysisResults -> string * string -> string * string -> string -> Res unit;
  calculate_claim : Q -> Q -> Res Q;
  insert_one : AnalysisData.t -> Res string;
  insert_field : FieldData.t -> Res string;
  ping : Res unit;
  render : Q -> string;
  send_claim_report : ClaimReport.t -> Res unit;
  clock : nat -> string
}.

(** ** The world a handler runs in *)

Record World : Type := {
  files : gmap string (list byte);   (* regular files, by path *)
  dirs : gset string;                (* directories, by path *)
  db_client : bool;                  (* [Database.client is not None] *)
  fields : list FieldData.t;         (* the ["fields"] collection *)
  analyses : list AnalysisData.t;    (* the ["analyses"] collection *)
  trace : list Event;
  ticks : nat;
  settings : Settings                (* [config.settings] *)
}.

Definition with_files (fs : gmap string (list byte)) (w : World) : World :=
  {| files := fs; dirs := dirs w; db_client := db_client w;
     fields := fields w; analyses := analyses w; trace := trace w;
     ticks := ticks w; settings := settings w |}.

Definition with_dirs (ds : gset string) (w : World) : World :=
  {| files := files w; dirs := ds; db_client := db_client w;
     fields := fields w; analyses := analyses w; trace := trace w;
     ticks := ticks w; settings := settings w |}.

Definition with_client (b : bool) (w : World) : World :=
  {| files := files w; dirs := dirs w; db_client := b; fields := fields w;
     analyses := analyses w; trace := trace w; ticks := ticks w;
     settings := settings w |}.

Definition with_fields (l : list FieldData.t) (w : World) : World :=
  {| files := files w; dirs := dirs w; db_client := db_client w;
     fields := l; analyses := analyses w; trace := trace w;
     ticks := ticks w; settings := settings w |}.

Definition with_analyses (l : list AnalysisData.t) (w : World) : World :=
  {| files := files w; dirs := dirs w; db_client := db_client w;
     fields := fields w; analyses := l; trace := trace w; ticks := ticks w;
     settings := settings w |}.

Definition with_trace (tr : list Event) (w : World) : World :=
  {| files := files w; dirs := dirs w; db_client := db_client w;
     fields := fields w; analyses := analyses w; trace := tr;
     ticks := ticks w; settings := settings w |}.

Definition with_ticks (n : nat) (w : World) : World :=
  {| files := files w; dirs := dirs w; db_client := db_client w;
     fields := fields w; analyses := analyses w; trace := trace w;
     ticks := n; settings := settings w |}.

(** ** Computations that may raise *)

Definition M (A : Type) : Type := World -> Res A * World.

Definition ret {A} (a : A) : M A := fun w => (inr a, w).

Definition raise {A} (e : Exc) : M A := fun w => (inl e, w).

Definition bind {A B} (m : M A) (k : A -> M B) : M B :=
  fun w =>
    match m w with
    | (inl e, w') => (inl e, w')
    | (inr a, w') => k a w'
    end.

(** [try: m  except Exception as e: h e] *)
Definition try_except {A} (m : M A) (h : Exc -> M A) : M A :=
  fun w =>
    match m w with
    | (inl e, w') => h e w'
    | (inr a, w') => (inr a, w')
    end.

Declare Scope py_scope.
Delimit Scope py_scope with py.
Notation "x <- m ; k" := (bind m (fun x => k))
  (at level 20, m at level 100, k at level 200, only parsing) : py_scope.
Notation "m ;; k" := (bind m (fun _ => k))
  (at level 100, k at level 200, only parsing, right associativity) : py_scope.
Local Open Scope py_scope.

(** A call to a collaborator: noted in the trace, then its outcome. *)
Definition call {A} (callee : string) (outcome : Res A) : M A :=
  fun w => (outcome, with_trace (trace w ++ [Invoke callee]) w).

(** Reading a global name inside a function body: the name is looked up in
    the namespace of the module that defined the function. *)
Definition binds (globals : gset string) (name : string) : bool :=
  bool_decide (name ∈ globals).

Definition load_global (globals : gset string) (name : string) : M unit :=
  if binds globals name then ret tt else raise (NameError name).

(** [datetime.now().timestamp()] inside an f-string. *)
Definition now (c : Collab) : M string :=
  fun w => (inr (clock c (ticks w)), with_ticks (S (ticks w)) w).

(** Reading and updating the world. *)
Definition gets {A} (f : World -> A) : M A := fun w => (inr (f w), w).

Definition modify (f : World -> World) : M unit := fun w => (inr tt, f w).

Definition get_settings : M Settings := gets settings.

(** The directory part of a path: what precedes the last separator. *)
Fixpoint parent_from (seen acc p : string) : string :=
  match p with
  | EmptyString => acc
  | String c rest =>
      if Ascii.eqb c "/"%char then parent_from (seen +:+ "/") seen rest
      else parent_from (seen +:+ String c "") acc rest
  end.

Definition parent (p : string) : string := parent_from "" "" p.

(** [with open(path, 'wb') as f: f.write(data)] *)
Definition write_bytes (path : string) (data : list byte) : M unit :=
  fun w =>
    if bool_decide (parent path ∈ dirs w)
    then (inr tt, with_files (<[path := data]> (files w)) w)
    else (inl (FileNotFoundError path), w).

(** [path.unlink()] *)
Definition unlink (path : string) : M unit :=
  fun w =>
    match files w !! path with
    | Some _ => (inr tt, with_files (delete path (files w)) w)
    | None => (inl (FileNotFoundError path), w)
    end.

(** [cls.DIR.mkdir(exist_ok=True)] *)
Definition mkdir_exist_ok (path : string) : M unit :=
  modify (fun w => with_dirs ({[ path ]} ∪ dirs w) w).

(** [Settings.create_directories] *)
Definition create_directories : M unit :=
  cfg <- get_settings ;
  mkdir_exist_ok (TEMP_DIR cfg) ;;
  mkdir_exist_ok (REPORTS_DIR cfg) ;;
  mkdir_exist_ok (STATIC_DIR cfg).

(** [np.nanmean] followed by [float]: the mean of the entries that are not
    NaN, NaN when there is none. *)
Definition nanmean (r : Raster) : option Q :=
  let valid : list Q := omap id (concat r) in
  match valid with
  | [] => None
  | _ :: _ =>
      Some (fold_right Qplus 0%Q valid / inject_Z (Z.of_nat (length valid)))%Q
  end.

(** ** Module namespaces *)

(** The names bound by the top-level statements of [main.py] whatever the
    module is called: its imports, [logger], [app], the models and the
    handlers. *)
Definition toplevel_names : list string :=
  [ "FastAPI"; "HTTPException"; "Depends"; "File"; "UploadFile";
    "CORSMiddleware"; "StaticFiles"; "FileResponse"; "JSONResponse";
    "BaseModel"; "Field"; "List"; "Optional"; "Dict"; "Any"; "datetime";
    "logging"; "asyncio"; "Path"; "json"; "settings"; "Database";
    "FieldModel"; "AnalysisModel"; "UserModel"; "SentinelHubAPI";
    "NDVIProcessor"; "VisualizationEngine"; "PDFReportGenerator";
    "InsuranceIntegration"; "ClaimEstimator"; "logger"; "app";
    "FieldRegistration"; "AnalysisResponse"; "HealthCheck";
    "startup_event"; "shutdown_event"; "root"; "register_field";
    "analyze_field"; "get_field_info"; "get_field_analyses"; "get_report";
    "get_dashboard_stats" ].

(** The names bound under [if __name__ == "__main__":]. *)
Definition script_names : list string := [ "uvicorn"; "np" ].

(** The namespace of an instance of the module whose [__name__] is
    [dunder_name], once its top-level code has run. *)
Definition module_globals (dunder_name : string) : gset string :=
  list_to_set
    (toplevel_names ++
     (if String.eqb dunder_name "__main__" then script_names else [])).

(** The module part of an import string ["module:attribute"]. *)
Fixpoint import_module (s : string) : string :=
  match s with
  | EmptyString => EmptyString
  | String c rest =>
      if Ascii.eqb c ":"%char then EmptyString
      else String c (import_module rest)
  end.

(** [uvicorn.run("main:app", ...)]: the server imports the application by
    name, so the handlers it serves live in the module called [main]. *)
Definition app_import_string : string := "main:app".

Definition served_globals : gset string :=
  module_globals (import_module app_import_string).

(** The namespace of the instance run as a script. *)
Definition script_globals : gset string := module_globals "__main__".

(** ** [analyze_field] *)

(** The local variables alive after the damage heatmap is drawn. *)
Record Locals : Type := {
  current_path : string;
  baseline_path : string;
  analysis_results : AnalysisResults;
  damage_heatmap_path : string
}.

Definition scratch (cfg : Settings) (kind id stamp : string) : string :=
  joinpath (TEMP_DIR cfg) (kind +:+ "_" +:+ id +:+ "_" +:+ stamp +:+ ".tif").

Definition artefact (dir kind id stamp ext : string) : string :=
  joinpath dir (kind +:+ "_" +:+ id +:+ "_" +:+ stamp +:+ ext).

Definition no_imagery : Exc :=
  HTTPException 404
    (Text "Unable to fetch satellite images. Check coordinates and date range.").

(** Steps 1 and 2 and the first drawing of step 3: from the start of the
    [try] block to the assignment of [damage_heatmap_path]. *)
Definition fetch_detect_heatmap (g : gset string) (c : Collab)
    (field : FieldRegistration) : M Locals :=
  load_global g "logger" ;;
  load_global g "SentinelHubAPI" ;;
  images <- call "SentinelHubAPI.get_field_images"
              (get_field_images c (coordinates field) (event_date field)) ;
  match current images, baseline images with
  | Some current_bytes, Some baseline_bytes =>
      load_global g "settings" ;;
      cfg <- get_settings ;
      load_global g "datetime" ;;
      t1 <- now c ;
      let current_path := scratch cfg "current" (farmer_id field) t1 in
      t2 <- now c ;
      let baseline_path := scratch cfg "baseline" (farmer_id field) t2 in
      write_bytes current_path current_bytes ;;
      write_bytes baseline_path baseline_bytes ;;
      load_global g "NDVIProcessor" ;;
      let polygon_geojson :=
        {| gj_type := "Polygon"; gj_coordinates := [coordinates field] |} in
      analysis_results <-
        call "NDVIProcessor.process_field_analysis"
          (process_field_analysis c current_path baseline_path polygon_geojson) ;
      load_global g "VisualizationEngine" ;;
      t3 <- now c ;
      damage_heatmap_path <-
        call "VisualizationEngine.create_damage_heatmap"
          (create_damage_heatmap c (damage_mask analysis_results)
             (artefact (STATIC_DIR cfg) "damage" (farmer_id field) t3 ".png")) ;
      ret {| current_path := current_path;
             baseline_path := baseline_path;
             analysis_results := analysis_results;
             damage_heatmap_path := damage_heatmap_path |}
  | _, _ =>
      load_global g "HTTPException" ;;
      raise no_imagery
  end.

(** ** [database.py] *)

(** [Database.get_database]: subscripting the client raises when no
    connection was ever opened. *)
Definition get_database : M unit :=
  fun w =>
    if db_client w then (inr tt, w)
    else (inl (Raised "TypeError: 'NoneType' object is not subscriptable"), w).

(** [Database.connect_db]: the client is stored first, then pinged; a
    failed ping is logged and raised again. *)
Definition connect_db (c : Collab) : M unit :=
  modify (with_client true) ;;
  try_except (call "admin.command" (ping c)) raise.

(** [Database.close_db]: closes the connection; the attribute keeps the
    client object. *)
Definition close_db : M unit := ret tt.

(** [AnalysisModel.create_analysis] *)
Definition create_analysis (c : Collab) (data : AnalysisData.t) : M string :=
  get_database ;;
  inserted_id <- call "analyses.insert_one" (insert_one c data) ;
  modify (fun w => with_analyses (analyses w ++ [data]) w) ;;
  ret inserted_id.

(** [FieldModel.create_field] *)
Definition create_field (c : Collab) (data : FieldData.t) : M string :=
  get_database ;;
  inserted_id <- call "fields.insert_one" (insert_field c data) ;
  modify (fun w => with_fields (fields w ++ [data]) w) ;;
  ret inserted_id.

(** [FieldModel.get_field]: the first document of that farmer. *)
Definition get_field (field_id : string) : M (option FieldData.t) :=
  get_database ;;
  gets (fun w =>
          List.find (fun d => String.eqb (FieldData.farmer_id d) field_id)
            (fields w)).

(** [AnalysisModel.get_analyses_by_field]: newest first, at most 50. *)
Definition get_analyses_by_field (id : string) : M (list AnalysisData.t) :=
  get_database ;;
  gets (fun w =>
          take 50 (rev (List.filter
                          (fun d => String.eqb (AnalysisData.farmer_id d) id)
                          (analyses w)))).

(** [await insurance.send_claim_report(payload)] *)
Definition send (c : Collab) (payload : ClaimReport.t) : M unit :=
  fun w => (send_claim_report c payload,
            with_trace (trace w ++ [Webhook payload]) w).

(** From the comment [# Create comparison chart] to the [return]. *)
Definition chart_report_claim (g : gset string) (c : Collab)
    (field : FieldRegistration) (l : Locals) : M AnalysisResponse.t :=
  let results := analysis_results l in
  let damage := damage_percent (damage_statistics results) in
  load_global g "np" ;;
  let current_mean_ndvi := nanmean (current_ndvi results) in
  let baseline_mean_ndvi := nanmean (baseline_ndvi results) in
  cfg <- get_settings ;
  t4 <- now c ;
  comparison_chart_path <-
    call "VisualizationEngine.create_comparison_chart"
      (create_comparison_chart c current_mean_ndvi baseline_mean_ndvi
         (artefact (STATIC_DIR cfg) "comparison" (farmer_id field) t4 ".png")) ;
  t5 <- now c ;
  map_path <-
    call "VisualizationEngine.create_interactive_map"
      (create_interactive_map c (coordinates field) damage
         (artefact (STATIC_DIR cfg) "map" (farmer_id field) t5 ".html")) ;
  load_global g "PDFReportGenerator" ;;
  t6 <- now c ;
  let report_path :=
    artefact (REPORTS_DIR cfg) "report" (farmer_id field) t6 ".pdf" in
  call "PDFReportGenerator.generate_report"
    (generate_report c results (farmer_id field, crop field)
       (damage_heatmap_path l, comparison_chart_path) report_path) ;;
  estimated_claim <-
    (match insured_amount field with
     | Some insured =>
         if truthy insured then
           load_global g "ClaimEstimator" ;;
           amount <- call "ClaimEstimator.calculate_claim"
                       (calculate_claim c insured damage) ;
           ret (Some amount)
         else ret None
     | None => ret None
     end) ;
  load_global g "AnalysisModel" ;;
  analysis_id <-
    create_analysis c
      {| AnalysisData.farmer_id := farmer_id field;
         AnalysisData.crop := crop field;
         AnalysisData.coordinates := coordinates field;
         AnalysisData.damage_statistics := damage_statistics results;
         AnalysisData.area_statistics := area_statistics results;
         AnalysisData.current_mean_ndvi := current_mean_ndvi;
         AnalysisData.baseline_mean_ndvi := baseline_mean_ndvi;
         AnalysisData.report_path := report_path;
         AnalysisData.map_path := map_path;
         AnalysisData.estimated_claim := estimated_claim |} ;
  (if truthy_opt (insured_amount field) && truthy_opt estimated_claim then
     load_global g "InsuranceIntegration" ;;
     load_global g "Path" ;;
     send c
       {| ClaimReport.farmer_id := farmer_id field;
          ClaimReport.analysis_id := analysis_id;
          ClaimReport.damage_percent := damage;
          ClaimReport.estimated_claim := estimated_claim;
          ClaimReport.report_url := "/reports/" +:+ path_name report_path |}
   else ret tt) ;;
  unlink (current_path l) ;;
  unlink (baseline_path l) ;;
  t7 <- now c ;
  load_global g "Path" ;;
  ret {| AnalysisResponse.analysis_id := analysis_id;
         AnalysisResponse.farmer_id := farmer_id field;
         AnalysisResponse.damage_percent := damage;
         AnalysisResponse.risk_score := risk_score (damage_statistics results);
         AnalysisResponse.area_hectares := total_area_ha (area_statistics results);
         AnalysisResponse.damaged_area_hectares :=
           damaged_area_ha (area_statistics results);
         AnalysisResponse.timestamp := t7;
         AnalysisResponse.report_url := "/reports/" +:+ path_name report_path;
         AnalysisResponse.map_url := "/static/" +:+ path_name map_path;
         AnalysisResponse.estimated_claim := estimated_claim |}.

(** The body of the [try] block. *)
Definition analyze_field_try (g : gset string) (c : Collab)
    (field : FieldRegistration) : M AnalysisResponse.t :=
  l <- fetch_detect_heatmap g c field ;
  chart_report_claim g c field l.

(** [except Exception as e: raise HTTPException(status_code=500,
    detail=str(e))] *)
Definition internal_error {A} (g : gset string) (e : Exc) : M A :=
  load_global g "logger" ;;
  load_global g "HTTPException" ;;
  raise (HTTPException 500 (StrOf e)).

(** [async def analyze_field(field)], as defined in a module whose
    namespace is [g]. *)
Definition analyze_field (g : gset string) (c : Collab)
    (field : FieldRegistration) : M AnalysisResponse.t :=
  try_except (analyze_field_try g c field) (internal_error g).

(** The status line the client reads. *)
Definition http_status {A} (r : Res A) : Z :=
  match r with
  | inr _ => 200
  | inl (HTTPException code _) => code
  | inl _ => 500
  end.

(** ** The other handlers of [main.py] *)

Inductive Reply : Type :=
| Health (h : HealthCheck)
| Registered (message field_id area_hectares : string)
| Analysis (r : AnalysisResponse.t)
| FieldInfo (d : FieldData.t)
| Analyses (l : list AnalysisData.t)
| Report (path : string)
| Stats (total_fields total_analyses recent_analyses : nat)
| Nothing.

(** [startup_event] *)
Definition startup_event (c : Collab) : M unit :=
  connect_db c ;;
  create_directories.

(** [shutdown_event] *)
Definition shutdown_event : M unit := close_db.

(** [root] *)
Definition root (c : Collab) : M HealthCheck :=
  cfg <- get_settings ;
  t <- now c ;
  ret {| status := "healthy"; version := APP_VERSION cfg; hc_timestamp := t |}.

(** [register_field] *)
Definition register_field (g : gset string) (c : Collab)
    (field : FieldRegistration) : M Reply :=
  try_except
    (load_global g "logger" ;;
     load_global g "SentinelHubAPI" ;;
     area_ha <- call "SentinelHubAPI.calculate_area_hectares"
                  (calculate_area_hectares c (coordinates field)) ;
     load_global g "FieldModel" ;;
     field_id <-
       create_field c
         {| FieldData.farmer_id := farmer_id field;
            FieldData.crop := crop field;
            FieldData.coordinates := coordinates field;
            FieldData.area_hectares := area_ha;
            FieldData.insured_amount := insured_amount field |} ;
     ret (Registered "Field registered successfully" field_id
            (render c area_ha)))
    (internal_error g).

(** [except HTTPException: raise] before [except Exception]. *)
Definition http_or_internal_error {A} (g : gset string) (e : Exc) : M A :=
  match e with
  | HTTPException _ _ => raise e
  | _ => internal_error g e
  end.

(** [get_field_info] *)
Definition get_field_info (g : gset string) (id : string) : M Reply :=
  try_except
    (load_global g "FieldModel" ;;
     found <- get_field id ;
     match found with
     | Some d => ret (FieldInfo d)
     | None =>
         load_global g "HTTPException" ;;
         raise (HTTPException 404 (Text "Field not found"))
     end)
    (http_or_internal_error g).

(** [get_field_analyses] *)
Definition get_field_analyses (g : gset string) (id : string) : M Reply :=
  try_except
    (load_global g "AnalysisModel" ;;
     l <- get_analyses_by_field id ;
     ret (Analyses l))
    (internal_error g).

(** [get_report]: no [try] block here, the 404 goes out as it is. *)
Definition get_report (g : gset string) (filename : string) : M Reply :=
  load_global g "settings" ;;
  cfg <- get_settings ;
  let report_path := joinpath (REPORTS_DIR cfg) filename in
  present <- gets (fun w =>
                     bool_decide (is_Some (files w !! report_path))
                     || bool_decide (report_path ∈ dirs w)) ;
  if present : bool then ret (Report report_path)
  else
    load_global g "HTTPException" ;;
    raise (HTTPException 404 (Text "Report not found")).

(** [get_dashboard_stats] *)
Definition get_dashboard_stats (g : gset string) : M Reply :=
  try_except
    (load_global g "Database" ;;
     get_database ;;
     total_fields <- gets (fun w => length (fields w)) ;
     total_analyses <- gets (fun w => length (analyses w)) ;
     recent_analyses <- gets (fun w => take 5 (rev (analyses w))) ;
     ret (Stats total_fields total_analyses (length recent_analyses)))
    (internal_error g).

(** One event delivered to the application. *)
Inductive Request : Type :=
| Startup
| Shutdown
| GetRoot
| PostRegisterField (field : FieldRegistration)
| PostAnalyzeField (field : FieldRegistration)
| GetFieldInfo (farmer : string)
| GetFieldAnalyses (farmer : string)
| GetReport (filename : string)
| GetDashboardStats.

Definition serve (g : gset string) (c : Collab) (rq : Request) : M Reply :=
  match rq with
  | Startup => startup_event c ;; ret Nothing
  | Shutdown => shutdown_event ;; ret Nothing
  | GetRoot => h <- root c ; ret (Health h)
  | PostRegisterField field => register_field g c field
  | PostAnalyzeField field => r <- analyze_field g c field ; ret (Analysis r)
  | GetFieldInfo farmer => get_field_info g farmer
  | GetFieldAnalyses farmer => get_field_analyses g farmer
  | GetReport filename => get_report g filename
  | GetDashboardStats => get_dashboard_stats g
  end.

(** The world after a sequence of events. *)
Fixpoint serve_all (g : gset string) (c : Collab) (rqs : list Request)
    (w : World) : World :=
  match rqs with
  | [] => w
  | rq :: rest => serve_all g c rest (snd (serve g c rq w))
  end.

(** ** Observations on a run *)

Definition listed (x : string) (l : list string) : bool :=
  bool_decide (x ∈ l).

(** The payloads handed to the insurance webhook, oldest first. *)
Fixpoint webhooks (tr : list Event) : list ClaimReport.t :=
  match tr with
  | [] => []
  | Webhook payload :: rest => payload :: webhooks rest
  | Invoke _ :: rest => webhooks rest
  end.

(** How many times a collaborator was called. *)
Fixpoint invocations (callee : string) (tr : list Event) : nat :=
  match tr with
  | [] => 0
  | Invoke name :: rest =>
      (if String.eqb name callee then 1 else 0) + invocations callee rest
  | Webhook _ :: rest => invocations callee rest
  end.

(** The claim report that goes with a response. *)
Definition report_for (r : AnalysisResponse.t) : ClaimReport.t :=
  {| ClaimReport.farmer_id := AnalysisResponse.farmer_id r;
     ClaimReport.analysis_id := AnalysisResponse.analysis_id r;
     ClaimReport.damage_percent := AnalysisResponse.damage_percent r;
     ClaimReport.estimated_claim := AnalysisResponse.estimated_claim r;
     ClaimReport.report_url := AnalysisResponse.report_url r |}.

(** [m] never changes the observation [obs] of the world, whether it
    returns or raises. *)
Definition preserves {X A : Type} (obs : World -> X) (m : M A) : Prop :=
  forall w, obs (snd (m w)) = obs w.

(** The process right after [import config]: [settings = Settings()]
    followed by [settings.create_directories()]. *)
Definition boot (environ : gmap string string) (base : string) : World :=
  snd (create_directories
         {| files := ∅; dirs := {[ base ]}; db_client := false;
            fields := []; analyses := []; trace := []; ticks := 0;
            settings := Config.load environ base |}).

End Main.

(** ** The claim estimator ([fintech_integration], §4.5 of the design) *)

Module FintechIntegration.

Inductive ClaimFailure : Type := InvalidClaimInput.

(** Modelled from the spec: the clamping of the final amount to
    [[lo, hi]]; the module [fintech_integration] is not part of the
    sources. *)
Definition clamp (lo hi x : Q) : Q := Qmax lo (Qmin hi x).

(** Modelled from the spec: [ClaimEstimator.calculate_claim], called
    [estimate_claim] in the design, whose module [fintech_integration] is
    not part of the sources.  [f] is the payout curve: the amount is
    [insured_amount * f damage_percent] clamped to [[0, insured_amount]];
    a non-positive insured amount or a damage outside [[0, 100]] is
    refused. *)
Definition estimate_claim (f : Q -> Q) (insured_amount damage_percent : Q)
    : ClaimFailure + Q :=
  if Qle_bool insured_amount 0
     || negb (Qle_bool 0 damage_percent)
     || negb (Qle_bool damage_percent 100)
  then inl InvalidClaimInput
  else inr (clamp 0 insured_amount (insured_amount * f damage_percent)).

(** Modelled from the spec: the estimator as the collaborator that
    [analyze_field] calls, a refusal being raised as an exception
    ([fintech_integration] is not part of the sources). *)
Definition as_collaborator (f : Q -> Q) (insured damage : Q) : Py.Res Q :=
  match estimate_claim f insured damage with
  | inl InvalidClaimInput => inl (Py.Raised "InvalidClaimInput")
  | inr amount => inr amount
  end.

End FintechIntegration.

(** ** The damage classifier ([ndvi_processor], §4.4 of the design) *)

Module NdviProcessor.

Inductive Severity : Type := none | damaged | severe.

Inductive Failure : Type := InsufficientDataError.

Definition Severity_eqb (a b : Severity) : bool :=
  match a, b with
  | none, none | damaged, damaged | severe, severe => true
  | _, _ => false
  end.

(** Modelled from the spec: the per-pixel severity rule of the classifier,
    whose module [ndvi_processor] is not part of the sources: [none] if
    [delta > damage_threshold]; [damaged] if
    [severe_threshold < delta <= damage_threshold]; [severe] if
    [delta <= severe_threshold]. *)
Definition severity (damage_threshold severe_threshold delta : Q) : Severity :=
  if negb (Qle_bool delta damage_threshold) then none
  else if negb (Qle_bool delta severe_threshold) then damaged
  else severe.

(** Modelled from the spec: the same classifier read from the tie-break
    sentence instead ([ndvi_processor] is not part of the sources): a
    delta equal to a threshold falls in the less severe tier. *)
Definition severity_lenient (damage_threshold severe_threshold delta : Q)
    : Severity :=
  if Qle_bool damage_threshold delta then none
  else if Qle_bool severe_threshold delta then damaged
  else severe.

(** Modelled from the spec: the deltas [current - baseline] of the pixels
    that are inside the mask and valid in both rasters ([ndvi_processor]
    is not part of the sources).  The three grids are given row after
    row. *)
Fixpoint masked_deltas (current baseline : list (option Q))
    (mask : list bool) : list Q :=
  match current, baseline, mask with
  | c :: cs, b :: bs, m :: ms =>
      match m, c, b with
      | true, Some x, Some y => (x - y)%Q :: masked_deltas cs bs ms
      | _, _, _ => masked_deltas cs bs ms
      end
  | _, _, _ => []
  end.

(** Modelled from the spec: the number of pixels inside the mask and valid
    in both rasters, the denominator of every percentage
    ([ndvi_processor] is not part of the sources). *)
Fixpoint valid_masked (current baseline : list (option Q))
    (mask : list bool) : nat :=
  match current, baseline, mask with
  | c :: cs, b :: bs, m :: ms =>
      (if m && bool_decide (is_Some c) && bool_decide (is_Some b)
       then 1 else 0) + valid_masked cs bs ms
  | _, _, _ => 0
  end.

(** Modelled from the spec: the number of pixels of one tier
    ([ndvi_processor] is not part of the sources). *)
Definition tally (s : Severity) (tiers : list Severity) : nat :=
  length (List.filter (Severity_eqb s) tiers).

Definition ratio (n d : nat) : Q :=
  (inject_Z (Z.of_nat n) / inject_Z (Z.of_nat d))%Q.

Record DamageStatistics : Type := {
  damage_percent : Q;
  fraction_none : Q;
  fraction_damaged : Q;
  fraction_severe : Q;
  risk_score : Q
}.

(** Modelled from the spec: the risk score, whose module [ndvi_processor]
    is not part of the sources: a weighted combination of the share of
    merely damaged pixels and of the share of severe pixels, both in
    percent, saturating at 10.  The two weights are calibration
    constants. *)
Definition risk (w_damaged w_severe damage_percent severe_fraction : Q) : Q :=
  FintechIntegration.clamp 0 10
    (w_damaged * (damage_percent - 100 * severe_fraction)
     + w_severe * (100 * severe_fraction))%Q.

(** Modelled from the spec: [classify_damage], the statistics computed by
    [NDVIProcessor.process_field_analysis], whose module [ndvi_processor]
    is not part of the sources.  [classify] is the per-pixel rule. *)
Definition classify_damage (classify : Q -> Severity) (w_damaged w_severe : Q)
    (current baseline : list (option Q)) (mask : list bool)
    : Failure + DamageStatistics :=
  let tiers := map classify (masked_deltas current baseline mask) in
  let valid := length tiers in
  if Nat.eqb valid 0 then inl InsufficientDataError
  else
    let percent :=
      (100 * ratio (tally damaged tiers + tally severe tiers) valid)%Q in
    inr {| damage_percent := percent;
           fraction_none := ratio (tally none tiers) valid;
           fraction_damaged := ratio (tally damaged tiers) valid;
           fraction_severe := ratio (tally severe tiers) valid;
           risk_score :=
             risk w_damaged w_severe percent (ratio (tally severe tiers) valid) |}.

End NdviProcessor.

(** ** Sample requests and collaborators *)

Module Fixtures.
Import Py Config Main.

(** [TEST_FIELD] of [test_api.py]. *)
Definition TEST_FIELD : FieldRegistration :=
  {| farmer_id := "TEST_20240101_120000";
     crop := "Rice";
     coordinates :=
       [ [816542 # 10000; 212234 # 10000]; [816555 # 10000; 212241 # 10000];
         [816571 # 10000; 212237 # 10000]; [816560 # 10000; 212229 # 10000];
         [816542 # 10000; 212234 # 10000] ]%Q;
     event_date := None;
     insured_amount := Some 500000%Q |}.

(** The same field without insurance. *)
Definition UNINSURED_FIELD : FieldRegistration :=
  {| farmer_id := farmer_id TEST_FIELD;
     crop := crop TEST_FIELD;
     coordinates := coordinates TEST_FIELD;
     event_date := None;
     insured_amount := None |}.

Definition tile : list byte := [x49; x49; x2a; x00]%byte.

Definition both_images : Images :=
  {| current := Some tile; baseline := Some tile |}.

Definition baseline_only : Images :=
  {| current := None; baseline := Some tile |}.

(** What the processor returns for a 1x2 field reported with [percent] of
    damage. *)
Definition results_with (percent : Q) : AnalysisResults :=
  {| damage_mask := [[Some 0; Some 0]]%Q;
     current_ndvi := [[Some (6 # 10); Some (7 # 10)]]%Q;
     baseline_ndvi := [[Some (6 # 10); Some (7 # 10)]]%Q;
     damage_statistics :=
       {| damage_percent := percent; risk_score := percent / 10 |};
     area_statistics :=
       {| total_area_ha := 2; damaged_area_ha := 2 * percent / 100 |} |}%Q.

(** The proportional payout curve. *)
Definition proportional (damage_percent : Q) : Q := (damage_percent / 100)%Q.

(** A payout curve that is neither monotone nor bounded by 1. *)
Definition erratic (damage_percent : Q) : Q :=
  (7 - damage_percent * damage_percent)%Q.

Definition reading (n : nat) : string :=
  "1704110400." +:+ String (Ascii.ascii_of_nat (48 + n)) "".

(** Every collaborator answers; the processor reports [percent] of damage;
    [images] is what the imagery service returns. *)
Definition collaborators (images : Images) (percent : Q) : Collab :=
  {| get_field_images := fun _ _ => inr images;
     calculate_area_hectares := fun _ => inr 2%Q;
     process_field_analysis := fun _ _ _ => inr (results_with percent);
     create_damage_heatmap := fun _ path => inr path;
     create_comparison_chart := fun _ _ path => inr path;
     create_interactive_map := fun _ _ path => inr path;
     generate_report := fun _ _ _ _ => inr tt;
     calculate_claim := FintechIntegration.as_collaborator proportional;
     insert_one := fun _ => inr "65a1f0c2e4b0a1b2c3d4e5f6";
     insert_field := fun _ => inr "65a1f0c2e4b0a1b2c3d4e5f7";
     ping := inr tt;
     render := fun _ => "2.0";
     send_claim_report := fun _ => inr tt;
     clock := reading |}.

(** As above, but the processor finds no usable pixel. *)
Definition unusable_tiles : Collab :=
  {| get_field_images := fun _ _ => inr both_images;
     calculate_area_hectares := fun _ => inr 2%Q;
     process_field_analysis := fun _ _ _ => inl (Raised "InsufficientDataError");
     create_damage_heatmap := fun _ path => inr path;
     create_comparison_chart := fun _ _ path => inr path;
     create_interactive_map := fun _ _ path => inr path;
     generate_report := fun _ _ _ _ => inr tt;
     calculate_claim := FintechIntegration.as_collaborator proportional;
     insert_one := fun _ => inr "65a1f0c2e4b0a1b2c3d4e5f6";
     insert_field := fun _ => inr "65a1f0c2e4b0a1b2c3d4e5f7";
     ping := inr tt;
     render := fun _ => "2.0";
     send_claim_report := fun _ => inr tt;
     clock := reading |}.

(** Scenario A of the design, row after row: five pixels that lost 0.5 and
    five that lost 0.1, all inside the mask. *)
Definition scenario_current : list (option Q) :=
  (repeat (Some 0.2%Q) 5 ++ repeat (Some 0.6%Q) 5)%list.

Definition scenario_baseline : list (option Q) := repeat (Some 0.7%Q) 10.

Definition scenario_mask : list bool := repeat true 10.

(** A field whose only pixels are cloud or outside the polygon. *)
Definition cloudy_current : list (option Q) := [None; Some 0.3%Q].

Definition cloudy_baseline : list (option Q) := [Some 0.7%Q; Some 0.7%Q].

Definition cloudy_mask : list bool := [true; false].

(** The process once [startup_event] has run. *)
Definition started : World :=
  snd (startup_event (collaborators both_images 0) (boot ∅ "/srv/farmview")).

End Fixtures.

(** ** More of [database.py] *)

Module Queries.
Import Py Config Main.
Local Open Scope py_scope.



End Queries.

(** ** Kinds of requests and of paths *)

Module Kinds.
Import Py Config Main.

Definition is_analysis (rq : Request) : bool :=
  match rq with
  | PostAnalyzeField _ => true
  | _ => false
  end.

Definition is_registration (rq : Request) : bool :=
  match rq with
  | PostRegisterField _ => true
  | _ => false
  end.

Definition is_startup (rq : Request) : bool :=
  match rq with
  | Startup => true
  | _ => false
  end.


(** A string without path separator. *)
Fixpoint slash_free (s : string) : bool :=
  match s with
  | EmptyString => true
  | String c rest => negb (Ascii.eqb c "/"%char) && slash_free rest
  end.

End Kinds.

(** ** [test_api.py]: the client-side test script *)

Module TestApi.

(** What [requests] hands back: a status code and a JSON object; [None]
    stands for an exception raised by the call (connection refused,
    timeout). *)
Record Response : Type := {
  status_code : Z;
  json : list (string * string)
}.

(** The common shape of the tests: a 200 passes, anything else or an
    exception fails. *)
Definition ok (r : option Response) : bool :=
  match r with
  | Some resp => Z.eqb (status_code resp) 200
  | None => false
  end.

(** [test_health_check] *)
Definition test_health_check (r : option Response) : bool := ok r.

(** [test_register_field]: the verdict and the decoded body. *)
Definition test_register_field (r : option Response)
    : bool * option (list (string * string)) :=
  match r with
  | Some resp =>
      if Z.eqb (status_code resp) 200 then (true, Some (json resp))
      else (false, None)
  | None => (false, None)
  end.

(** [test_get_field] *)
Definition test_get_field (r : option Response) : bool := ok r.

(** [str.lower] on the ASCII letters. *)
Definition lower_char (c : ascii) : ascii :=
  let n := nat_of_ascii c in
  if (65 <=? n)%nat && (n <=? 90)%nat then ascii_of_nat (n + 32) else c.

Fixpoint lower (s : string) : string :=
  match s with
  | EmptyString => EmptyString
  | String c rest => String (lower_char c) (lower rest)
  end.

(** [test_analyze_field]: [proceed] is what the user typed at the prompt;
    the request is sent only after a "y". *)
Definition test_analyze_field (proceed : string) (r : option Response) : bool :=
  if negb (String.eqb (lower proceed) "y") then false else ok r.

(** [test_dashboard_stats] *)
Definition test_dashboard_stats (r : option Response) : bool := ok r.

(** [bool(data)] for the decoded body of the registration. *)
Definition truthy_body (data : option (list (string * string))) : bool :=
  match data with
  | Some (_ :: _) => true
  | _ => false
  end.

(** [run_all_tests]: the list of verdicts, or [None] when the script gives
    up after the health check.  The arguments are the responses the five
    requests get. *)
Definition run_all_tests (health register field analysis stats : option Response)
    (proceed : string) : option (list (string * bool)) :=
  let results := [("Health Check", test_health_check health)] in
  if negb (test_health_check health) then None
  else
    let '(success, data) := test_register_field register in
    let results := (results ++ [("Register Field", success)])%list in
    let results :=
      if success && truthy_body data
      then (results ++ [("Get Field", test_get_field field);
                        ("Analyze Field", test_analyze_field proceed analysis)])%list
      else results in
    Some (results ++ [("Dashboard Stats", test_dashboard_stats stats)])%list.

(** [passed = sum(1 for _, result in results if result)] *)
Definition passed (results : list (string * bool)) : nat :=
  length (List.filter snd results).

(** [passed == total], the condition of the line "All tests passed!". *)
Definition all_passed (results : list (string * bool)) : bool :=
  Nat.eqb (passed results) (length results).

End TestApi.

(** ** Views of requests and errors used in the statements *)

Module Views.
Import Py Config Main.

(** What [Database.get_database] raises when no client was created. *)
Definition no_client_error : Exc :=
  Raised "TypeError: 'NoneType' object is not subscriptable".

(** The [field_data] dictionary that [register_field] builds. *)
Definition field_document (field : FieldRegistration) (area_ha : Q)
    : FieldData.t :=
  {| FieldData.farmer_id := farmer_id field;
     FieldData.crop := crop field;
     FieldData.coordinates := coordinates field;
     FieldData.area_hectares := area_ha;
     FieldData.insured_amount := insured_amount field |}.

End Views.

(** ** More sample requests and collaborators *)

Module Samples.
Import Py Config Main.

(** [TEST_FIELD] insured for nothing. *)
Definition ZERO_INSURED : FieldRegistration :=
  {| farmer_id := farmer_id Fixtures.TEST_FIELD;
     crop := crop Fixtures.TEST_FIELD;
     coordinates := coordinates Fixtures.TEST_FIELD;
     event_date := None;
     insured_amount := Some 0%Q |}.

(** Every collaborator answers, half of the field is damaged, and the clock
    is stuck on one reading. *)
Definition steady : Collab :=
  {| get_field_images := fun _ _ => inr Fixtures.both_images;
     calculate_area_hectares := fun _ => inr 2%Q;
     process_field_analysis := fun _ _ _ => inr (Fixtures.results_with 50);
     create_damage_heatmap := fun _ path => inr path;
     create_comparison_chart := fun _ _ path => inr path;
     create_interactive_map := fun _ _ path => inr path;
     generate_report := fun _ _ _ _ => inr tt;
     calculate_claim :=
       FintechIntegration.as_collaborator Fixtures.proportional;
     insert_one := fun _ => inr "65a1f0c2e4b0a1b2c3d4e5f6";
     insert_field := fun _ => inr "65a1f0c2e4b0a1b2c3d4e5f7";
     ping := inr tt;
     render := fun _ => "2.0";
     send_claim_report := fun _ => inr tt;
     clock := fun _ => "1704110400.25" |}.

(** As [steady], with a database server that cannot be reached. *)
Definition offline : Collab :=
  {| get_field_images := fun _ _ => inr Fixtures.both_images;
     calculate_area_hectares := fun _ => inr 2%Q;
     process_field_analysis := fun _ _ _ => inr (Fixtures.results_with 50);
     create_damage_heatmap := fun _ path => inr path;
     create_comparison_chart := fun _ _ path => inr path;
     create_interactive_map := fun _ _ path => inr path;
     generate_report := fun _ _ _ _ => inr tt;
     calculate_claim :=
       FintechIntegration.as_collaborator Fixtures.proportional;
     insert_one := fun _ => inl (Raised "ServerSelectionTimeoutError");
     insert_field := fun _ => inl (Raised "ServerSelectionTimeoutError");
     ping := inl (Raised "ServerSelectionTimeoutError");
     render := fun _ => "2.0";
     send_claim_report := fun _ => inr tt;
     clock := fun _ => "1704110400.25" |}.

(** As [steady], with an insurance webhook that cannot be reached. *)
Definition unreachable_insurer : Collab :=
  {| get_field_images := fun _ _ => inr Fixtures.both_images;
     calculate_area_hectares := fun _ => inr 2%Q;
     process_field_analysis := fun _ _ _ => inr (Fixtures.results_with 50);
     create_damage_heatmap := fun _ path => inr path;
     create_comparison_chart := fun _ _ path => inr path;
     create_interactive_map := fun _ _ path => inr path;
     generate_report := fun _ _ _ _ => inr tt;
     calculate_claim :=
       FintechIntegration.as_collaborator Fixtures.proportional;
     insert_one := fun _ => inr "65a1f0c2e4b0a1b2c3d4e5f6";
     insert_field := fun _ => inr "65a1f0c2e4b0a1b2c3d4e5f7";
     ping := inr tt;
     render := fun _ => "2.0";
     send_claim_report := fun _ => inl (Raised "ConnectError");
     clock := fun _ => "1704110400.25" |}.

(** A 200 with the given JSON object. *)
Definition http_200 (body : list (string * string))
    : option TestApi.Response :=
  Some {| TestApi.status_code := 200; TestApi.json := body |}.

End Samples.

(** * Properties *)

Import Py Config Main.
Local Open Scope py_scope.

(** ** Name resolution *)

Lemma binds_module_globals (n x : string) :
  binds (module_globals n) x =
  listed x (toplevel_names ++
            (if String.eqb n "__main__" then script_names else [])).
Proof.
  apply bool_decide_ext. unfold module_globals. apply elem_of_list_to_set.
Qed.

(** A name bound at top level resolves in every instance of the module. *)
Lemma binds_toplevel (n x : string) :
  listed x toplevel_names = true -> binds (module_globals n) x = true.
Proof.
  intros Hx. rewrite binds_module_globals.
  apply bool_decide_eq_true in Hx.
  apply bool_decide_eq_true. rewrite elem_of_app. by left.
Qed.

(** [np] resolves only in the instance run as a script. *)
Lemma binds_np (n : string) :
  binds (module_globals n) "np" = String.eqb n "__main__".
Proof.
  rewrite binds_module_globals.
  destruct (String.eqb n "__main__"); vm_compute; reflexivity.
Qed.

Lemma served_module_is_main : import_module app_import_string = "main".
Proof. reflexivity. Qed.

Lemma np_unbound_when_served : binds served_globals "np" = false.
Proof. unfold served_globals. rewrite binds_np. reflexivity. Qed.

Ltac resolve_global x :=
  rewrite ?(binds_toplevel _ x eq_refl) in *.

Ltac resolve_globals :=
  unfold load_global in *;
  resolve_global "logger"; resolve_global "SentinelHubAPI";
  resolve_global "HTTPException"; resolve_global "settings";
  resolve_global "datetime"; resolve_global "NDVIProcessor";
  resolve_global "VisualizationEngine"; resolve_global "PDFReportGenerator";
  resolve_global "ClaimEstimator"; resolve_global "AnalysisModel";
  resolve_global "InsuranceIntegration"; resolve_global "Path";
  resolve_global "FieldModel"; resolve_global "Database".

(** The [except] clause turns whatever was raised into a 500. *)
Lemma internal_error_run {A} (n : string) (e : Exc) (w : World) :
  @internal_error A (module_globals n) e w = (inl (HTTPException 500 (StrOf e)), w).
Proof. unfold internal_error. resolve_globals. reflexivity. Qed.

Lemma analyze_field_run (n : string) (c : Collab) (field : FieldRegistration)
    (w : World) :
  analyze_field (module_globals n) c field w =
  match analyze_field_try (module_globals n) c field w with
  | (inl e, w') => (inl (HTTPException 500 (StrOf e)), w')
  | (inr r, w') => (inr r, w')
  end.
Proof.
  unfold analyze_field, try_except.
  destruct (analyze_field_try _ c field w) as [[e | r] w']; [| reflexivity].
  apply internal_error_run.
Qed.

(** ** Running a computation step by step *)

Section Inversion.
Context {A B : Type}.

Lemma bind_inr (m : M A) (k : A -> M B) (w : World) (b : B) (w' : World) :
  bind m k w = (inr b, w') ->
  exists a w1, m w = (inr a, w1) /\ k a w1 = (inr b, w').
Proof.
  unfold bind. destruct (m w) as [[e | a] w1]; [discriminate |]. eauto.
Qed.

Lemma ret_inr (a a' : A) (w w' : World) :
  ret a w = (inr a', w') -> a' = a /\ w' = w.
Proof. unfold ret. intros [= <- <-]. done. Qed.

Lemma call_inr (callee : string) (o : Res A) (w : World) (a : A) (w' : World) :
  call callee o w = (inr a, w') ->
  o = inr a /\ w' = with_trace (trace w ++ [Invoke callee]) w.
Proof. unfold call. intros [= -> <-]. done. Qed.

Lemma gets_inr (f : World -> A) (w : World) (a : A) (w' : World) :
  gets f w = (inr a, w') -> a = f w /\ w' = w.
Proof. unfold gets. intros [= <- <-]. done. Qed.
End Inversion.

Lemma modify_inr (f : World -> World) (w : World) (u : unit) (w' : World) :
  modify f w = (inr u, w') -> w' = f w.
Proof. unfold modify. intros [= <-]. done. Qed.

Lemma load_global_inr (g : gset string) (x : string) (w : World) (u : unit)
    (w' : World) :
  load_global g x w = (inr u, w') -> binds g x = true /\ w' = w.
Proof. unfold load_global. destruct (binds g x); intros [= <-]; done. Qed.

Lemma now_inr (c : Collab) (w : World) (t : string) (w' : World) :
  now c w = (inr t, w') ->
  t = clock c (ticks w) /\ w' = with_ticks (S (ticks w)) w.
Proof. unfold now. intros [= <- <-]. done. Qed.

Lemma write_bytes_inr (p : string) (d : list byte) (w : World) (u : unit)
    (w' : World) :
  write_bytes p d w = (inr u, w') ->
  parent p ∈ dirs w /\ w' = with_files (<[p := d]> (files w)) w.
Proof. unfold write_bytes. case_bool_decide; intros [= <-]; done. Qed.

Lemma unlink_inr (p : string) (w : World) (u : unit) (w' : World) :
  unlink p w = (inr u, w') ->
  is_Some (files w !! p) /\ w' = with_files (delete p (files w)) w.
Proof. unfold unlink. destruct (files w !! p) eqn:Hp; intros [= <-]; eauto. Qed.

Lemma get_database_inr (w : World) (u : unit) (w' : World) :
  get_database w = (inr u, w') -> db_client w = true /\ w' = w.
Proof. unfold get_database. destruct (db_client w); intros [= <-]; done. Qed.

Lemma send_inr (c : Collab) (p : ClaimReport.t) (w : World) (u : unit)
    (w' : World) :
  send c p w = (inr u, w') -> w' = with_trace (trace w ++ [Webhook p]) w.
Proof. unfold send. intros [= _ <-]. done. Qed.

Ltac world_simpl :=
  cbn [files dirs db_client fields analyses trace ticks settings
       with_files with_dirs with_client with_fields with_analyses with_trace
       with_ticks current_path baseline_path analysis_results
       damage_heatmap_path] in *.

(** Splits a successful run of a sequence into the successful runs of its
    steps, and names the world each step leaves. *)
Ltac monad_inv H :=
  let H1 := fresh "Hstep" in
  let E := fresh "E" in
  lazymatch type of H with
  | bind _ _ _ = (inr _, _) =>
      apply bind_inr in H as (? & ? & H1 & H); monad_inv H1; monad_inv H
  | ret _ _ = (inr _, _) => apply ret_inr in H as [? ?]; subst; world_simpl
  | call _ _ _ = (inr _, _) => apply call_inr in H as [E ?]; subst; world_simpl
  | load_global _ _ _ = (inr _, _) =>
      apply load_global_inr in H as [E ?]; subst; world_simpl
  | now _ _ = (inr _, _) => apply now_inr in H as [? ?]; subst; world_simpl
  | get_settings _ = (inr _, _) =>
      apply gets_inr in H as [? ?]; subst; world_simpl
  | gets _ _ = (inr _, _) => apply gets_inr in H as [? ?]; subst; world_simpl
  | modify _ _ = (inr _, _) => apply modify_inr in H; subst; world_simpl
  | write_bytes _ _ _ = (inr _, _) =>
      apply write_bytes_inr in H as [E ?]; subst; world_simpl
  | unlink _ _ = (inr _, _) =>
      apply unlink_inr in H as [E ?]; subst; world_simpl
  | get_database _ = (inr _, _) =>
      apply get_database_inr in H as [E ?]; subst; world_simpl
  | send _ _ _ = (inr _, _) => apply send_inr in H; subst; world_simpl
  | raise _ _ = (inr _, _) => discriminate H
  | _ => idtac
  end.

Lemma create_analysis_inr (c : Collab) (data : AnalysisData.t) (w : World)
    (id : string) (w' : World) :
  create_analysis c data w = (inr id, w') ->
  insert_one c data = inr id /\
  w' = with_analyses (analyses w ++ [data])
         (with_trace (trace w ++ [Invoke "analyses.insert_one"]) w).
Proof. unfold create_analysis. intros H. monad_inv H. done. Qed.

Lemma webhooks_app (tr1 tr2 : list Event) :
  webhooks (tr1 ++ tr2) = (webhooks tr1 ++ webhooks tr2)%list.
Proof.
  induction tr1 as [| [name | payload] tr1 IH]; cbn; [done | done |].
  by rewrite IH.
Qed.

Lemma invocations_app (callee : string) (tr1 tr2 : list Event) :
  invocations callee (tr1 ++ tr2) =
  invocations callee tr1 + invocations callee tr2.
Proof.
  induction tr1 as [| [name | payload] tr1 IH]; cbn; [done | | done].
  rewrite IH. lia.
Qed.

(** What the steps before the comparison chart leave when they succeed: both
    scratch files are on disk and no webhook was called. *)
Lemma fetch_detect_heatmap_inr (n : string) (c : Collab)
    (field : FieldRegistration) (w : World) (l : Locals) (w1 : World) :
  fetch_detect_heatmap (module_globals n) c field w = (inr l, w1) ->
  is_Some (files w1 !! current_path l) /\
  is_Some (files w1 !! baseline_path l) /\
  webhooks (trace w1) = webhooks (trace w) /\
  invocations "ClaimEstimator.calculate_claim" (trace w1) =
    invocations "ClaimEstimator.calculate_claim" (trace w) /\
  settings w1 = settings w.
Proof.
  intros Hpre. unfold fetch_detect_heatmap in Hpre. monad_inv Hpre.
  destruct (current _) as [cur |]; [destruct (baseline _) as [base |] |];
    monad_inv Hpre.
  repeat split.
  - rewrite lookup_insert. case_decide; [done |].
    rewrite lookup_insert_eq. done.
  - rewrite lookup_insert_eq. done.
  - rewrite !webhooks_app. cbn. by rewrite !app_nil_r.
  - rewrite !invocations_app. cbn. lia.
Qed.

Ltac run_inv :=
  repeat match goal with
  | H : (match insured_amount ?f with _ => _ end) _ = (inr _, _) |- _ =>
      let Hins := fresh "Hins" in
      destruct (insured_amount f) as [? |] eqn:Hins; cbn [truthy_opt] in *
  | H : (if truthy ?i then _ else _) _ = (inr _, _) |- _ =>
      let Ht := fresh "Htruthy" in destruct (truthy i) eqn:Ht
  | H : (if ?b then _ else _) _ = (inr _, _) |- _ =>
      let Hb := fresh "Hguard" in destruct b eqn:Hb
  | H : create_analysis _ _ _ = (inr _, _) |- _ =>
      apply create_analysis_inr in H as [? ?]; subst; world_simpl
  | H : _ = (inr _, _) |- _ => progress monad_inv H
  end.

(** What the steps from the comparison chart on have done when they reach
    the [return]. *)
Lemma chart_report_claim_inr (n : string) (c : Collab)
    (field : FieldRegistration) (l : Locals) (w1 : World)
    (resp : AnalysisResponse.t) (w' : World) :
  chart_report_claim (module_globals n) c field l w1 = (inr resp, w') ->
  webhooks (trace w') =
    (webhooks (trace w1) ++
     (if truthy_opt (insured_amount field)
         && truthy_opt (AnalysisResponse.estimated_claim resp)
      then [report_for resp] else []))%list /\
  match AnalysisResponse.estimated_claim resp with
  | Some amount =>
      exists insured,
        insured_amount field = Some insured /\ truthy insured = true /\
        calculate_claim c insured (AnalysisResponse.damage_percent resp)
        = inr amount
  | None => truthy_opt (insured_amount field) = false
  end /\
  files w' = delete (baseline_path l) (delete (current_path l) (files w1)) /\
  binds (module_globals n) "np" = true.
Proof.
  intros Hpost. unfold chart_report_claim in Hpost. monad_inv Hpost.
  run_inv.
  all: cbn [AnalysisResponse.estimated_claim AnalysisResponse.damage_percent
            truthy_opt andb] in *.
  all: try discriminate.
  all: rewrite ?webhooks_app; cbn [webhooks]; rewrite ?app_nil_r.
  all: rewrite ?Hguard.
  all: repeat split; eauto; by rewrite app_nil_r.
Qed.

(** A completed analysis, end to end. *)
Lemma analyze_field_inr (n : string) (c : Collab) (field : FieldRegistration)
    (w : World) (resp : AnalysisResponse.t) (w' : World) :
  analyze_field (module_globals n) c field w = (inr resp, w') ->
  webhooks (trace w') =
    (webhooks (trace w) ++
     (if truthy_opt (insured_amount field)
         && truthy_opt (AnalysisResponse.estimated_claim resp)
      then [report_for resp] else []))%list /\
  match AnalysisResponse.estimated_claim resp with
  | Some amount =>
      exists insured,
        insured_amount field = Some insured /\ truthy insured = true /\
        calculate_claim c insured (AnalysisResponse.damage_percent resp)
        = inr amount
  | None => truthy_opt (insured_amount field) = false
  end /\
  binds (module_globals n) "np" = true.
Proof.
  rewrite analyze_field_run.
  destruct (analyze_field_try _ c field w) as [[e | r] w2] eqn:Htry;
    [discriminate |].
  intros [= -> ->]. unfold analyze_field_try in Htry.
  apply bind_inr in Htry as (l & w1 & Hpre & Hpost).
  apply fetch_detect_heatmap_inr in Hpre as (_ & _ & Hhooks & _).
  apply chart_report_claim_inr in Hpost as (Hsent & Hclaim & _ & Hnp).
  rewrite Hsent, Hhooks. done.
Qed.

(** ** What a computation leaves untouched *)

Section Frame.
Context {X : Type} (obs : World -> X).

Lemma preserves_ret {A} (a : A) : preserves obs (ret a).
Proof. intros w. reflexivity. Qed.

Lemma preserves_raise {A} (e : Exc) : preserves obs (@raise A e).
Proof. intros w. reflexivity. Qed.

Lemma preserves_gets {A} (f : World -> A) : preserves obs (gets f).
Proof. intros w. reflexivity. Qed.

Lemma preserves_get_settings : preserves obs get_settings.
Proof. intros w. reflexivity. Qed.

Lemma preserves_load_global (g : gset string) (x : string) :
  preserves obs (load_global g x).
Proof. intros w. unfold load_global. destruct (binds g x); reflexivity. Qed.

Lemma preserves_get_database : preserves obs get_database.
Proof. intros w. unfold get_database. destruct (db_client w); reflexivity. Qed.

Lemma preserves_bind {A B} (m : M A) (k : A -> M B) :
  preserves obs m -> (forall a, preserves obs (k a)) ->
  preserves obs (bind m k).
Proof.
  intros Hm Hk w. unfold bind. specialize (Hm w).
  destruct (m w) as [[e | a] w1]; cbn in *; [done |].
  by rewrite Hk.
Qed.

Lemma preserves_try_except {A} (m : M A) (h : Exc -> M A) :
  preserves obs m -> (forall e, preserves obs (h e)) ->
  preserves obs (try_except m h).
Proof.
  intros Hm Hh w. unfold try_except. specialize (Hm w).
  destruct (m w) as [[e | a] w1]; cbn in *; [| done].
  by rewrite Hh.
Qed.

Lemma preserves_modify (f : World -> World) :
  (forall w, obs (f w) = obs w) -> preserves obs (modify f).
Proof. intros Hf w. apply Hf. Qed.

Lemma preserves_call {A} (callee : string) (o : Res A) :
  (forall w, obs (with_trace (trace w ++ [Invoke callee]) w) = obs w) ->
  preserves obs (call callee o).
Proof. intros Hf w. apply Hf. Qed.

Lemma preserves_send (c : Collab) (p : ClaimReport.t) :
  (forall w, obs (with_trace (trace w ++ [Webhook p]) w) = obs w) ->
  preserves obs (send c p).
Proof. intros Hf w. apply Hf. Qed.

Lemma preserves_now (c : Collab) :
  (forall n w, obs (with_ticks n w) = obs w) -> preserves obs (now c).
Proof. intros Hf w. apply Hf. Qed.

Lemma preserves_write_bytes (p : string) (d : list byte) :
  (forall fs w, obs (with_files fs w) = obs w) ->
  preserves obs (write_bytes p d).
Proof.
  intros Hf w. unfold write_bytes. case_bool_decide; [apply Hf | done].
Qed.

Lemma preserves_unlink (p : string) :
  (forall fs w, obs (with_files fs w) = obs w) -> preserves obs (unlink p).
Proof.
  intros Hf w. unfold unlink. destruct (files w !! p); [apply Hf | done].
Qed.
End Frame.

(** Discharges the side condition of a primitive step. *)
Ltac unchanged :=
  intros; cbn;
  first [ reflexivity
        | rewrite invocations_app; cbn; lia ].

(** Walks through a handler, one step at a time. *)
Ltac frame :=
  repeat first
    [ apply preserves_ret | apply preserves_raise | apply preserves_gets
    | apply preserves_get_settings
    | apply preserves_load_global | apply preserves_get_database
    | apply preserves_bind; [| intros ?]
    | apply preserves_try_except; [| intros ?]
    | apply preserves_modify; unchanged
    | apply preserves_call; unchanged
    | apply preserves_send; unchanged
    | apply preserves_now; unchanged
    | apply preserves_write_bytes; unchanged
    | apply preserves_unlink; unchanged
    | match goal with
      | |- preserves _ (match ?x with _ => _ end) => destruct x
      end
    | progress unfold internal_error, http_or_internal_error, create_analysis,
        create_field, get_field, get_analyses_by_field, connect_db, close_db,
        create_directories, mkdir_exist_ok, startup_event, shutdown_event ].

(** No handler of [main.py] writes to [config.settings]. *)
Lemma analyze_field_preserves_settings (g : gset string) (c : Collab)
    (field : FieldRegistration) :
  preserves settings (analyze_field g c field).
Proof.
  unfold analyze_field, analyze_field_try, chart_report_claim. frame.
Qed.

Lemma serve_preserves_settings (g : gset string) (c : Collab) (rq : Request) :
  preserves settings (serve g c rq).
Proof.
  destruct rq; cbn [serve].
  5: { apply preserves_bind; [apply analyze_field_preserves_settings |].
       intros r. apply preserves_ret. }
  all: unfold root, register_field, get_field_info, get_field_analyses,
         get_report, get_dashboard_stats; frame.
Qed.

Lemma serve_all_settings (g : gset string) (c : Collab) (rqs : list Request)
    (w : World) :
  settings (serve_all g c rqs w) = settings w.
Proof.
  revert w. induction rqs as [| rq rest IH]; intros w; cbn; [done |].
  rewrite IH. apply serve_preserves_settings.
Qed.

Lemma boot_settings (environ : gmap string string) (base : string) :
  settings (boot environ base) = Config.load environ base.
Proof.
  unfold boot.
  match goal with
  | |- settings (snd (create_directories ?w0)) = _ =>
      assert (H : preserves settings create_directories) by frame;
      rewrite (H w0)
  end.
  reflexivity.
Qed.

(** ** The served application never answers an analysis *)

Lemma chart_needs_np (c : Collab) (field : FieldRegistration) (l : Locals)
    (w : World) :
  chart_report_claim served_globals c field l w = (inl (NameError "np"), w).
Proof.
  unfold chart_report_claim, load_global.
  rewrite np_unbound_when_served. reflexivity.
Qed.

(** In the served module a run that got as far as the damage heatmap stops
    at [np.nanmean], in the world the heatmap step left. *)
Lemma served_run_stops_at_np (c : Collab) (field : FieldRegistration)
    (w : World) (l : Locals) (w1 : World) :
  fetch_detect_heatmap served_globals c field w = (inr l, w1) ->
  analyze_field served_globals c field w =
  (inl (HTTPException 500 (StrOf (NameError "np"))), w1).
Proof.
  intros Hpre. unfold served_globals in *.
  rewrite analyze_field_run. unfold analyze_field_try, bind.
  rewrite Hpre. fold served_globals. rewrite chart_needs_np. reflexivity.
Qed.

Lemma served_run_fails (c : Collab) (field : FieldRegistration) (w : World) :
  exists e w',
    analyze_field served_globals c field w =
    (inl (HTTPException 500 (StrOf e)), w').
Proof.
  destruct (fetch_detect_heatmap served_globals c field w)
    as [[e | l] w1] eqn:Hpre.
  - exists e, w1. unfold served_globals in *.
    rewrite analyze_field_run. unfold analyze_field_try, bind.
    rewrite Hpre. reflexivity.
  - exists (NameError "np"), w1. exact (served_run_stops_at_np _ _ _ _ _ Hpre).
Qed.

(** C1: in the module instance that the server imports, [np] is unbound;
    every run that gets past the damage heatmap stops with
    [NameError: np], and every run of [analyze_field], whatever the
    collaborators answer, ends in an [HTTPException] of status 500: the
    handler never returns an [AnalysisResponse]. *)
Theorem served_analysis_never_succeeds (c : Collab) (field : FieldRegistration)
    (w : World) :
  binds served_globals "np" = false /\
  (forall l w1,
     fetch_detect_heatmap served_globals c field w = (inr l, w1) ->
     analyze_field served_globals c field w =
     (inl (HTTPException 500 (StrOf (NameError "np"))), w1)) /\
  (exists e w',
     analyze_field served_globals c field w =
     (inl (HTTPException 500 (StrOf e)), w')) /\
  http_status (fst (analyze_field served_globals c field w)) = 500%Z.
Proof.
  split; [exact np_unbound_when_served |].
  split; [intros l w1; apply served_run_stops_at_np |].
  split; [apply served_run_fails |].
  destruct (served_run_fails c field w) as (e & w' & ->). reflexivity.
Qed.

Lemma served_analysis_never_succeeds_witness :
  fst (analyze_field served_globals
         (Fixtures.collaborators Fixtures.both_images 50) Fixtures.TEST_FIELD
         Fixtures.started)
  = inl (HTTPException 500 (StrOf (NameError "np"))).
Proof.
  destruct (served_analysis_never_succeeds
              (Fixtures.collaborators Fixtures.both_images 50)
              Fixtures.TEST_FIELD Fixtures.started) as (_ & Hrun & _).
  erewrite Hrun; [reflexivity |].
  vm_compute. reflexivity.
Defined.

(** ** Missing imagery *)

(** C7: when the imagery service returns no current or no baseline image,
    the [try] block raises the 404 [HTTPException], the blanket [except]
    clause catches it, and the caller receives status 500 carrying the text
    of the 404. *)
Theorem missing_imagery_answers_500 (n : string) (c : Collab)
    (field : FieldRegistration) (w : World) (images : Images) :
  get_field_images c (coordinates field) (event_date field) = inr images ->
  current images = None \/ baseline images = None ->
  let w' := with_trace (trace w ++ [Invoke "SentinelHubAPI.get_field_images"]) w in
  analyze_field_try (module_globals n) c field w = (inl no_imagery, w') /\
  http_status (A:=AnalysisResponse.t) (inl no_imagery) = 404%Z /\
  analyze_field (module_globals n) c field w =
    (inl (HTTPException 500 (StrOf no_imagery)), w') /\
  http_status (fst (analyze_field (module_globals n) c field w)) = 500%Z.
Proof.
  intros Himages Hnone w'.
  assert (Htry : analyze_field_try (module_globals n) c field w
                 = (inl no_imagery, w')).
  { unfold analyze_field_try, fetch_detect_heatmap. resolve_globals.
    unfold bind, call, ret, raise. cbn. rewrite Himages.
    destruct Hnone as [-> | ->]; [reflexivity |].
    destruct (current images); reflexivity. }
  rewrite analyze_field_run, Htry. repeat split.
Qed.

Lemma missing_imagery_answers_500_witness :
  http_status
    (fst (analyze_field served_globals
            (Fixtures.collaborators Fixtures.baseline_only 50)
            Fixtures.TEST_FIELD Fixtures.started)) = 500%Z.
Proof.
  apply (missing_imagery_answers_500 "main"
           (Fixtures.collaborators Fixtures.baseline_only 50)
           Fixtures.TEST_FIELD Fixtures.started Fixtures.baseline_only).
  - reflexivity.
  - left. reflexivity.
Defined.

(** ** Scratch files *)

(** Whenever the served handler has written its two scratch files and gone
    past the heatmap, it fails and both files stay on disk. *)
Lemma served_run_leaves_temp_files (c : Collab) (field : FieldRegistration)
    (w : World) (l : Locals) (w1 : World) :
  fetch_detect_heatmap served_globals c field w = (inr l, w1) ->
  exists w',
    analyze_field served_globals c field w =
      (inl (HTTPException 500 (StrOf (NameError "np"))), w') /\
    is_Some (files w' !! current_path l) /\
    is_Some (files w' !! baseline_path l).
Proof.
  intros Hpre. exists w1.
  split; [exact (served_run_stops_at_np _ _ _ _ _ Hpre) |].
  unfold served_globals in Hpre.
  apply fetch_detect_heatmap_inr in Hpre as (Hcur & Hbase & _). done.
Qed.

(** C3, at a failing input: the processor finds no usable pixel after both
    scratch files were written; the handler answers 500 and the two files,
    absent before the request, are still in the temporary directory when it
    returns.  The design asks for their release on that exit too. *)
Theorem failed_analysis_leaves_temp_files :
  let run := analyze_field served_globals Fixtures.unusable_tiles
               Fixtures.TEST_FIELD Fixtures.started in
  fst run = inl (HTTPException 500 (StrOf (Raised "InsufficientDataError"))) /\
  files Fixtures.started = ∅ /\
  files (snd run)
    !! "/srv/farmview/temp/current_TEST_20240101_120000_1704110400.0.tif"
    = Some Fixtures.tile /\
  files (snd run)
    !! "/srv/farmview/temp/baseline_TEST_20240101_120000_1704110400.1.tif"
    = Some Fixtures.tile.
Proof.
  cbv zeta. repeat split; vm_compute; reflexivity.
Qed.

(** ** The claim estimate and the insurance webhook *)

(** C4, as stated, fails: a completed analysis whose computed claim is 0
    carries an estimate, yet no report reaches the insurance webhook. *)
Lemma zero_claim_is_not_reported :
  ~ (forall n c field w resp w',
       analyze_field (module_globals n) c field w = (inr resp, w') ->
       is_Some (AnalysisResponse.estimated_claim resp) ->
       exists payload,
         payload ∈ webhooks (trace w') /\
         ClaimReport.report_url payload = AnalysisResponse.report_url resp).
Proof.
  intros Hclaim.
  pose proof (Hclaim "__main__" (Fixtures.collaborators Fixtures.both_images 0)
                Fixtures.TEST_FIELD Fixtures.started) as Hrun.
  destruct (analyze_field (module_globals "__main__")
              (Fixtures.collaborators Fixtures.both_images 0)
              Fixtures.TEST_FIELD Fixtures.started)
    as [[e | resp] w'] eqn:Heq; vm_compute in Heq; [discriminate |].
  injection Heq as <- <-.
  destruct (Hrun _ _ eq_refl) as (payload & Hin & _); [by eexists |].
  vm_compute in Hin. by apply elem_of_nil in Hin.
Qed.

(** C4, amended: a completed analysis hands its claim report, carrying the
    URL of the PDF report, to the insurance webhook exactly when the
    estimate is present and different from zero; with an estimate of 0, or
    none, nothing is sent. *)
Theorem nonzero_claim_is_reported (n : string) (c : Collab)
    (field : FieldRegistration) (w : World) (resp : AnalysisResponse.t)
    (w' : World) :
  analyze_field (module_globals n) c field w = (inr resp, w') ->
  webhooks (trace w') =
    (webhooks (trace w) ++
     match AnalysisResponse.estimated_claim resp with
     | Some amount => if truthy amount then [report_for resp] else []
     | None => []
     end)%list /\
  ClaimReport.report_url (report_for resp) = AnalysisResponse.report_url resp.
Proof.
  intros Hrun. split; [| reflexivity].
  apply analyze_field_inr in Hrun as (Hsent & Hclaim & _).
  rewrite Hsent. f_equal.
  destruct (AnalysisResponse.estimated_claim resp) as [amount |].
  - destruct Hclaim as (insured & -> & Htruthy & _). cbn. by rewrite Htruthy.
  - by rewrite andb_false_r.
Qed.

Lemma nonzero_claim_is_reported_witness :
  exists resp w',
    analyze_field script_globals
      (Fixtures.collaborators Fixtures.both_images 50) Fixtures.TEST_FIELD
      Fixtures.started = (inr resp, w') /\
    webhooks (trace w') = [report_for resp].
Proof.
  eexists. eexists. split; [vm_compute; reflexivity |].
  match goal with
  | |- webhooks (trace ?w') = [report_for ?resp] =>
      destruct (nonzero_claim_is_reported "__main__"
                  (Fixtures.collaborators Fixtures.both_images 50)
                  Fixtures.TEST_FIELD Fixtures.started resp w') as [Hsent _]
  end.
  - vm_compute. reflexivity.
  - rewrite Hsent. vm_compute. reflexivity.
Defined.

(** C5: a request without [insured_amount] never reaches the claim
    estimator, whether the analysis completes or fails, and if it completes
    the [estimated_claim] of the response is [None]. *)
Theorem no_insured_amount_no_claim (n : string) (c : Collab)
    (field : FieldRegistration) (w : World) :
  insured_amount field = None ->
  (forall resp w',
     analyze_field (module_globals n) c field w = (inr resp, w') ->
     AnalysisResponse.estimated_claim resp = None) /\
  invocations "ClaimEstimator.calculate_claim"
    (trace (snd (analyze_field (module_globals n) c field w)))
  = invocations "ClaimEstimator.calculate_claim" (trace w).
Proof.
  intros Hins. split.
  - intros resp w' Hrun.
    apply analyze_field_inr in Hrun as (_ & Hclaim & _).
    destruct (AnalysisResponse.estimated_claim resp) as [amount |]; [| done].
    destruct Hclaim as (insured & Hsome & _). congruence.
  - assert (Hframe : preserves
              (fun w0 => invocations "ClaimEstimator.calculate_claim" (trace w0))
              (analyze_field (module_globals n) c field)).
    { unfold analyze_field, analyze_field_try, chart_report_claim.
      rewrite Hins. cbn [truthy_opt andb]. frame. }
    apply Hframe.
Qed.

Lemma no_insured_amount_no_claim_witness :
  exists resp w',
    analyze_field script_globals
      (Fixtures.collaborators Fixtures.both_images 50)
      Fixtures.UNINSURED_FIELD Fixtures.started = (inr resp, w') /\
    AnalysisResponse.estimated_claim resp = None.
Proof.
  eexists. eexists. split; [vm_compute; reflexivity |].
  destruct (no_insured_amount_no_claim "__main__"
              (Fixtures.collaborators Fixtures.both_images 50)
              Fixtures.UNINSURED_FIELD Fixtures.started eq_refl) as [Hnone _].
  eapply Hnone. vm_compute. reflexivity.
Defined.

(** ** Calibration constants *)

(** C6: the settings object built when [config] is imported holds
    [NDVI_DAMAGE_THRESHOLD = -0.2] and [NDVI_SEVERE_DAMAGE_THRESHOLD = -0.4]
    whatever the environment, and after any sequence of startup, shutdown
    and requests served by the application it still holds these two
    values: no handler writes to the settings. *)
Theorem thresholds_fixed_at_load (environ : gmap string string)
    (base : string) (g : gset string) (c : Collab) (rqs : list Request) :
  NDVI_DAMAGE_THRESHOLD (Config.load environ base) = (-0.2)%Q /\
  NDVI_SEVERE_DAMAGE_THRESHOLD (Config.load environ base) = (-0.4)%Q /\
  settings (serve_all g c rqs (boot environ base)) = Config.load environ base /\
  NDVI_DAMAGE_THRESHOLD (settings (serve_all g c rqs (boot environ base)))
  = (-0.2)%Q /\
  NDVI_SEVERE_DAMAGE_THRESHOLD
    (settings (serve_all g c rqs (boot environ base))) = (-0.4)%Q.
Proof.
  rewrite serve_all_settings, boot_settings. repeat split.
Qed.

(** ** The claim estimator *)

Section ClaimBounds.
Import FintechIntegration.
Local Open Scope Q_scope.

Lemma clamp_bounds (lo hi x : Q) :
  lo <= hi -> lo <= clamp lo hi x /\ clamp lo hi x <= hi.
Proof.
  intros Hle. unfold clamp. split.
  - apply Q.le_max_l.
  - apply Q.max_lub; [exact Hle | apply Q.le_min_l].
Qed.

Lemma clamp_monotone (lo hi x y : Q) :
  x <= y -> clamp lo hi x <= clamp lo hi y.
Proof.
  intros Hle. unfold clamp.
  apply Q.max_le_compat_l, Q.min_le_compat_l, Hle.
Qed.

(** Inside its domain the estimator answers with the clamped product. *)
Lemma estimate_claim_accepts (f : Q -> Q) (insured damage : Q) :
  0 < insured -> 0 <= damage -> damage <= 100 ->
  estimate_claim f insured damage
  = inr (clamp 0 insured (insured * f damage)).
Proof.
  intros Hpos Hlo Hhi. unfold estimate_claim.
  destruct (Qle_bool insured 0) eqn:Hins.
  { apply Qle_bool_iff in Hins. lra. }
  apply Qle_bool_iff in Hlo, Hhi. rewrite Hlo, Hhi. reflexivity.
Qed.

(** C2: for a positive insured amount and a damage between 0 and 100 the
    estimator returns an amount, and that amount lies between 0 and the
    insured amount, whatever the payout curve [f] is. *)
Theorem claim_amount_within_insured (f : Q -> Q) (insured damage : Q) :
  0 < insured -> 0 <= damage -> damage <= 100 ->
  exists amount,
    estimate_claim f insured damage = inr amount /\
    as_collaborator f insured damage = inr amount /\
    0 <= amount /\ amount <= insured.
Proof.
  intros Hpos Hlo Hhi.
  exists (clamp 0 insured (insured * f damage)).
  unfold as_collaborator. rewrite estimate_claim_accepts by assumption.
  repeat split; apply clamp_bounds; lra.
Qed.

Lemma claim_amount_within_insured_witness :
  exists amount,
    estimate_claim Fixtures.erratic 500000 2 = inr amount /\
    0 <= amount /\ amount <= 500000.
Proof.
  destruct (claim_amount_within_insured Fixtures.erratic 500000 2)
    as (amount & Hest & _ & Hlo & Hhi); [lra | lra | lra |].
  exists amount. auto.
Defined.
End ClaimBounds.

(** ** Monotonicity in the damage *)

Section Monotone.
Import FintechIntegration NdviProcessor.
Local Open Scope Q_scope.

(** The combination under the clamp, with the severe pixels a fixed share
    [rho] of the damaged ones. *)
Lemma weighted_damage_monotone (w_damaged w_severe rho d1 d2 : Q) :
  0 <= w_damaged -> w_damaged <= w_severe -> 0 <= rho -> rho <= 1 ->
  d1 <= d2 ->
  w_damaged * (d1 - 100 * (rho * d1 / 100))
    + w_severe * (100 * (rho * d1 / 100))
  <= w_damaged * (d2 - 100 * (rho * d2 / 100))
    + w_severe * (100 * (rho * d2 / 100)).
Proof.
  intros Hwd Hws Hrho0 Hrho1 Hd.
  assert (Hflat : forall d,
            w_damaged * (d - 100 * (rho * d / 100))
              + w_severe * (100 * (rho * d / 100))
            == d * (w_damaged * (1 - rho) + w_severe * rho))
    by (intros; field).
  rewrite !Hflat.
  assert (0 <= w_damaged * (1 - rho) + w_severe * rho) by nra.
  nra.
Qed.

(** For a fixed damage, more severe pixels never lower the score. *)
Lemma risk_monotone_in_severe (w_damaged w_severe d s1 s2 : Q) :
  w_damaged <= w_severe -> s1 <= s2 ->
  risk w_damaged w_severe d s1 <= risk w_damaged w_severe d s2.
Proof.
  intros Hws Hs. unfold risk. apply clamp_monotone. nra.
Qed.

Lemma risk_bounded (w_damaged w_severe d s : Q) :
  0 <= risk w_damaged w_severe d s /\ risk w_damaged w_severe d s <= 10.
Proof. unfold risk. apply clamp_bounds. lra. Qed.

(** C8: with a non-decreasing payout curve and weights such that a severe
    pixel counts at least as much as a damaged one, a larger damage
    percentage, the severe pixels staying the same share [rho] of the
    damaged ones, gives a risk score that is not smaller; and for a fixed
    insured amount it gives a claim amount that is not smaller. *)
Theorem damage_monotone (f : Q -> Q) (w_damaged w_severe rho d1 d2 insured : Q) :
  (forall x y, x <= y -> f x <= f y) ->
  0 <= w_damaged -> w_damaged <= w_severe ->
  0 <= rho -> rho <= 1 ->
  0 <= d1 -> d1 <= d2 -> d2 <= 100 ->
  0 < insured ->
  risk w_damaged w_severe d1 (rho * d1 / 100)
    <= risk w_damaged w_severe d2 (rho * d2 / 100) /\
  exists a1 a2,
    estimate_claim f insured d1 = inr a1 /\
    estimate_claim f insured d2 = inr a2 /\
    a1 <= a2.
Proof.
  intros Hf Hwd Hws Hrho0 Hrho1 Hd1 Hd Hd2 Hins. split.
  - unfold risk. apply clamp_monotone.
    by apply weighted_damage_monotone.
  - exists (clamp 0 insured (insured * f d1)),
           (clamp 0 insured (insured * f d2)).
    rewrite !estimate_claim_accepts by lra.
    repeat split. apply clamp_monotone.
    specialize (Hf d1 d2 Hd). nra.
Qed.

Lemma proportional_monotone (x y : Q) :
  x <= y -> Fixtures.proportional x <= Fixtures.proportional y.
Proof.
  unfold Fixtures.proportional, Qdiv. intros H.
  apply Qmult_le_compat_r; [exact H | discriminate].
Qed.

Lemma damage_monotone_witness :
  risk (1 # 20) (1 # 10) 20 ((1 # 2) * 20 / 100)
    <= risk (1 # 20) (1 # 10) 50 ((1 # 2) * 50 / 100) /\
  exists a1 a2,
    estimate_claim Fixtures.proportional 500000 20 = inr a1 /\
    estimate_claim Fixtures.proportional 500000 50 = inr a2 /\
    a1 <= a2.
Proof.
  apply (damage_monotone Fixtures.proportional (1 # 20) (1 # 10) (1 # 2)
           20 50 500000); try lra.
  exact proportional_monotone.
Defined.
End Monotone.

(** ** The damage classifier *)

Section Classifier.
Import NdviProcessor.
Local Open Scope Q_scope.


(** No pixel counts exactly when every pixel is outside the mask or
    invalid in one of the two rasters. *)
Lemma valid_masked_zero (current baseline : list (option Q))
    (mask : list bool) :
  valid_masked current baseline mask = 0%nat <->
  forall i c b m,
    current !! i = Some c -> baseline !! i = Some b -> mask !! i = Some m ->
    m = false \/ c = None \/ b = None.
Proof.
  revert baseline mask.
  induction current as [| c cs IH]; intros [| b bs] [| m ms]; cbn;
    try (split; [intros _ i ? ? ? Hc Hb Hm; by destruct i | done]).
  split.
  - intros Hzero [| i] c' b' m' Hc Hb Hm; cbn in *.
    + injection Hc as <-. injection Hb as <-. injection Hm as <-.
      destruct m, c as [x |], b as [y |]; cbn in Hzero; auto; lia.
    + apply (proj1 (IH bs ms)) with i; auto.
      destruct (m && _ && _); cbn in Hzero; lia.
  - intros Hall.
    assert (Hrest : valid_masked cs bs ms = 0%nat).
    { apply IH. intros i c' b' m' Hc Hb Hm. by apply (Hall (S i)). }
    rewrite Hrest.
    destruct (Hall 0%nat c b m eq_refl eq_refl eq_refl) as [-> | [-> | ->]];
      [done | by destruct m | by destruct m, c].
Qed.


(** Scenario A of the design: five severe pixels, five untouched ones. *)
Example scenario_a :
  exists stats,
    classify_damage (severity (-0.2) (-0.4)) (1 # 20) (1 # 10)
      Fixtures.scenario_current Fixtures.scenario_baseline
      Fixtures.scenario_mask = inr stats /\
    damage_percent stats == 50 /\
    fraction_severe stats == 0.5 /\
    fraction_damaged stats == 0 /\
    fraction_none stats == 0.5.
Proof. eexists. split; [vm_compute; reflexivity |]. repeat split. Qed.

(** A field without a single usable pixel cannot be assessed. *)
Example no_usable_pixel :
  classify_damage (severity (-0.2) (-0.4)) (1 # 20) (1 # 10)
    Fixtures.cloudy_current Fixtures.cloudy_baseline Fixtures.cloudy_mask
  = inl InsufficientDataError.
Proof. reflexivity. Qed.

(** *** The two readings of the boundary

    The design states the per-pixel rule twice: once by inequalities
    ([severity]) and once by a tie-break sentence ([severity_lenient]).
    The two agree everywhere except on the thresholds themselves. *)

Lemma Qle_bool_true (a b : Q) : a <= b -> Qle_bool a b = true.
Proof. apply Qle_bool_iff. Qed.

Lemma Qle_bool_false (a b : Q) : b < a -> Qle_bool a b = false.
Proof.
  intros Hlt. destruct (Qle_bool a b) eqn:Hle; [| reflexivity].
  apply Qle_bool_iff in Hle. lra.
Qed.

Lemma severity_on_thresholds (damage_threshold severe_threshold : Q) :
  severe_threshold < damage_threshold ->
  severity damage_threshold severe_threshold damage_threshold = damaged /\
  severity damage_threshold severe_threshold severe_threshold = severe.
Proof.
  intros Hlt. unfold severity.
  rewrite (Qle_bool_true damage_threshold damage_threshold) by lra.
  rewrite (Qle_bool_true severe_threshold damage_threshold) by lra.
  rewrite (Qle_bool_true severe_threshold severe_threshold) by lra.
  rewrite (Qle_bool_false damage_threshold severe_threshold) by lra.
  split; reflexivity.
Qed.

Lemma severity_lenient_on_thresholds (damage_threshold severe_threshold : Q) :
  severe_threshold < damage_threshold ->
  severity_lenient damage_threshold severe_threshold damage_threshold = none /\
  severity_lenient damage_threshold severe_threshold severe_threshold = damaged.
Proof.
  intros Hlt. unfold severity_lenient.
  rewrite (Qle_bool_true damage_threshold damage_threshold) by lra.
  rewrite (Qle_bool_true severe_threshold severe_threshold) by lra.
  rewrite (Qle_bool_false damage_threshold severe_threshold) by lra.
  split; reflexivity.
Qed.

Lemma readings_agree_off_thresholds (damage_threshold severe_threshold delta : Q) :
  ~ delta == damage_threshold -> ~ delta == severe_threshold ->
  severity damage_threshold severe_threshold delta
  = severity_lenient damage_threshold severe_threshold delta.
Proof.
  intros Hd Hs. unfold severity, severity_lenient.
  destruct (Qle_bool delta damage_threshold) eqn:H1,
           (Qle_bool damage_threshold delta) eqn:H2,
           (Qle_bool delta severe_threshold) eqn:H3,
           (Qle_bool severe_threshold delta) eqn:H4; cbn; try reflexivity.
  all: repeat match goal with
         | H : Qle_bool _ _ = true |- _ => apply Qle_bool_iff in H
         | H : Qle_bool ?a ?b = false |- _ =>
             assert (~ a <= b) by (rewrite <- Qle_bool_iff; congruence);
             clear H
         end.
  all: exfalso; first [ apply Hd; lra | apply Hs; lra | lra ].
Qed.
End Classifier.

(** * Further properties *)

Import Queries Kinds TestApi Views Samples.
(** ** Status codes of the handlers *)

(** X1: whatever module instance defines the handler and whatever the
    collaborators answer, [analyze_field] either returns a response or
    raises an [HTTPException] of status 500 that carries the text of the
    exception it caught; no other status leaves the handler. *)
Theorem analyze_field_answers_200_or_500 (n : string) (c : Collab)
    (field : FieldRegistration) (w : World) :
  (exists resp w', analyze_field (module_globals n) c field w = (inr resp, w')) \/
  (exists e w',
     analyze_field (module_globals n) c field w
     = (inl (HTTPException 500 (StrOf e)), w')).
Proof.
  rewrite analyze_field_run.
  destruct (analyze_field_try _ c field w) as [[e | resp] w']; eauto.
Qed.





(** ** Registration *)

Lemma register_field_run (n : string) (c : Collab) (field : FieldRegistration)
    (w : World) :
  register_field (module_globals n) c field w =
  let w1 :=
    with_trace
      (trace w ++ [Invoke "SentinelHubAPI.calculate_area_hectares"]) w in
  match calculate_area_hectares c (coordinates field) with
  | inl e => (inl (HTTPException 500 (StrOf e)), w1)
  | inr area_ha =>
      if db_client w then
        let w2 := with_trace (trace w1 ++ [Invoke "fields.insert_one"]) w1 in
        match insert_field c (field_document field area_ha) with
        | inl e => (inl (HTTPException 500 (StrOf e)), w2)
        | inr field_id =>
            (inr (Registered "Field registered successfully" field_id
                    (render c area_ha)),
             with_fields (fields w ++ [field_document field area_ha]) w2)
        end
      else (inl (HTTPException 500 (StrOf no_client_error)), w1)
  end.
Proof.
  unfold register_field, create_field, get_database, internal_error.
  resolve_globals.
  unfold try_except, bind, ret, raise, call, modify. cbn.
  destruct (calculate_area_hectares c (coordinates field)); cbn;
    [reflexivity |].
  destruct (db_client w); cbn; [| reflexivity].
  unfold field_document.
  destruct (insert_field c _); reflexivity.
Qed.

(** X3: [register_field] inserts exactly one document, built from the
    request and the computed area, when it answers; when it fails it
    answers 500 and the ["fields"] collection is as before.  It never
    touches the analyses nor the files. *)
Theorem register_field_stores_once_or_nothing (n : string) (c : Collab)
    (field : FieldRegistration) (w : World) :
  let run := register_field (module_globals n) c field w in
  analyses (snd run) = analyses w /\
  files (snd run) = files w /\
  match fst run with
  | inr reply =>
      exists area_ha field_id,
        calculate_area_hectares c (coordinates field) = inr area_ha /\
        insert_field c (field_document field area_ha) = inr field_id /\
        reply = Registered "Field registered successfully" field_id
                  (render c area_ha) /\
        fields (snd run) = (fields w ++ [field_document field area_ha])%list
  | inl e =>
      fields (snd run) = fields w /\
      exists cause, e = HTTPException 500 (StrOf cause)
  end.
Proof.
  cbv zeta. rewrite register_field_run. cbv zeta.
  destruct (calculate_area_hectares c (coordinates field)) as [e | area_ha];
    [cbn; eauto |].
  destruct (db_client w); [| cbn; eauto].
  destruct (insert_field c _) as [e | field_id] eqn:Hins; cbn; eauto 10.
Qed.



(** ** Without a database connection *)





(** ** Listings *)




(** ** A completed analysis, in full *)

Lemma scratch_cleanup (fs : gmap string (list byte)) (cp bp : string)
    (a b : list byte) :
  delete bp (delete cp (<[bp := b]> (<[cp := a]> fs)))
  = delete bp (delete cp fs).
Proof.
  destruct (decide (cp = bp)) as [-> | Hne].
  - by rewrite !delete_insert_eq.
  - rewrite (delete_insert_ne _ cp bp) by done.
    by rewrite !delete_insert_eq.
Qed.

Lemma create_analysis_connected (c : Collab) (data : AnalysisData.t)
    (w : World) (id : string) (w' : World) :
  create_analysis c data w = (inr id, w') -> db_client w = true.
Proof.
  unfold create_analysis. intros H.
  apply bind_inr in H as (u & w1 & Hdb & _).
  by apply get_database_inr in Hdb as [Hdb _].
Qed.

Ltac run_inv_db :=
  repeat match goal with
  | H : (match insured_amount ?f with _ => _ end) _ = (inr _, _) |- _ =>
      let Hins := fresh "Hins" in
      destruct (insured_amount f) as [? |] eqn:Hins; cbn [truthy_opt] in *
  | H : (if truthy ?i then _ else _) _ = (inr _, _) |- _ =>
      let Ht := fresh "Htruthy" in destruct (truthy i) eqn:Ht
  | H : (if ?b then _ else _) _ = (inr _, _) |- _ =>
      let Hb := fresh "Hguard" in destruct b eqn:Hb
  | H : create_analysis _ _ _ = (inr _, _) |- _ =>
      let Hdb := fresh "Hdb" in
      pose proof (create_analysis_connected _ _ _ _ _ H) as Hdb;
      apply create_analysis_inr in H as [? ?]; subst; world_simpl
  | H : _ = (inr _, _) |- _ => progress monad_inv H
  end.

Lemma analyze_field_completed (n : string) (c : Collab)
    (field : FieldRegistration) (w : World) (resp : AnalysisResponse.t)
    (w' : World) :
  analyze_field (module_globals n) c field w = (inr resp, w') ->
  let cfg := settings w in
  let id := farmer_id field in
  let t := ticks w in
  let cp := scratch cfg "current" id (clock c t) in
  let bp := scratch cfg "baseline" id (clock c (S t)) in
  let report_path :=
    artefact (REPORTS_DIR cfg) "report" id (clock c (5 + t)) ".pdf" in
  exists results heat chart doc,
    process_field_analysis c cp bp
      {| gj_type := "Polygon"; gj_coordinates := [coordinates field] |}
      = inr results /\
    generate_report c results (id, crop field) (heat, chart) report_path
      = inr tt /\
    insert_one c doc = inr (AnalysisResponse.analysis_id resp) /\
    AnalysisData.farmer_id doc = id /\
    AnalysisData.report_path doc = report_path /\
    AnalysisData.estimated_claim doc = AnalysisResponse.estimated_claim resp /\
    AnalysisData.damage_statistics doc = damage_statistics results /\
    AnalysisResponse.report_url resp = "/reports/" +:+ path_name report_path /\
    AnalysisResponse.farmer_id resp = id /\
    AnalysisResponse.damage_percent resp
      = damage_percent (damage_statistics results) /\
    AnalysisResponse.risk_score resp = risk_score (damage_statistics results) /\
    analyses w' = (analyses w ++ [doc])%list /\
    files w' = delete bp (delete cp (files w)) /\
    db_client w' = true /\
    fields w' = fields w /\
    dirs w' = dirs w /\
    settings w' = settings w /\
    ticks w' = 7 + t /\
    parent cp ∈ dirs w /\ parent bp ∈ dirs w.
Proof.
  rewrite analyze_field_run.
  destruct (analyze_field_try _ c field w) as [[e | r] w2] eqn:Htry;
    [discriminate |].
  intros [= -> ->]. unfold analyze_field_try in Htry.
  apply bind_inr in Htry as (l & w1 & Hpre & Hpost).
  unfold fetch_detect_heatmap in Hpre. monad_inv Hpre.
  destruct (current _) as [cur |]; [destruct (baseline _) as [base |] |];
    monad_inv Hpre.
  unfold chart_report_claim in Hpost. monad_inv Hpost. run_inv_db.
  all: cbv zeta; cbn [Nat.add].
  all: rewrite ?scratch_cleanup.
  all: repeat match goal with u : unit |- _ => destruct u end.
  all: do 4 eexists.
  all: repeat split; try reflexivity; try eassumption.
Qed.

(** ** Paths *)


Lemma append_cons (x : ascii) (a b : string) :
  String x a +:+ b = String x (a +:+ b).
Proof. reflexivity. Qed.


Lemma append_assoc (a b c : string) : (a +:+ b) +:+ c = a +:+ (b +:+ c).
Proof.
  induction a as [| x a IH]; [done |].
  rewrite !append_cons. by f_equal.
Qed.

Lemma append_nil_r (a : string) : a +:+ "" = a.
Proof.
  induction a as [| x a IH]; [done |]. rewrite append_cons. by f_equal.
Qed.

Lemma slash_free_app (a b : string) :
  slash_free (a +:+ b) = slash_free a && slash_free b.
Proof.
  induction a as [| x a IH]; [done |].
  rewrite append_cons. cbn [slash_free]. rewrite IH. by rewrite andb_assoc.
Qed.

Lemma name_from_slash_free (acc leaf : string) :
  slash_free leaf = true -> name_from acc leaf = acc +:+ leaf.
Proof.
  revert acc. induction leaf as [| x leaf IH]; intros acc Hfree;
    cbn [slash_free name_from] in *.
  - by rewrite append_nil_r.
  - apply andb_true_iff in Hfree as [Hx Hfree].
    apply negb_true_iff in Hx. rewrite Hx, IH by done.
    by rewrite append_assoc.
Qed.

Lemma name_from_after_slash (acc dir leaf : string) :
  name_from acc (dir +:+ String "/" leaf) = name_from "" leaf.
Proof.
  revert acc. induction dir as [| x dir IH]; intros acc.
  - reflexivity.
  - rewrite append_cons. cbn [name_from].
    destruct (Ascii.eqb x "/"); apply IH.
Qed.

(** [Path(dir / leaf).name] gives the leaf back. *)
Lemma path_name_joinpath (dir leaf : string) :
  slash_free leaf = true -> path_name (joinpath dir leaf) = leaf.
Proof.
  intros Hfree. unfold path_name, joinpath.
  change ("/" +:+ leaf) with (String "/" leaf).
  rewrite name_from_after_slash. by rewrite name_from_slash_free.
Qed.




Lemma leaf_slash_free (kind id stamp ext : string) :
  slash_free kind = true -> slash_free id = true ->
  slash_free stamp = true -> slash_free ext = true ->
  slash_free (kind +:+ "_" +:+ id +:+ "_" +:+ stamp +:+ ext) = true.
Proof.
  intros Hk Hi Hs He. rewrite !slash_free_app, Hk, Hi, Hs, He. reflexivity.
Qed.


(** ** Scratch files, stored analyses and the report link *)






Lemma get_report_run (n : string) (filename : string) (w : World) :
  get_report (module_globals n) filename w =
  let report_path := joinpath (REPORTS_DIR (settings w)) filename in
  if bool_decide (is_Some (files w !! report_path))
     || bool_decide (report_path ∈ dirs w)
  then (inr (Report report_path), w)
  else (inl (HTTPException 404 (Text "Report not found")), w).
Proof.
  unfold get_report. resolve_globals.
  unfold bind, ret, raise, get_settings, gets. cbn.
  destruct (_ || _); reflexivity.
Qed.

(** X10: when the farmer identifier and the clock readings contain no
    path separator, the name in the [report_url] of a completed analysis,
    requested through [get_report], resolves to the very path the PDF
    generator was told to write. *)
Theorem report_url_resolves (n : string) (c : Collab)
    (field : FieldRegistration) (w : World) (resp : AnalysisResponse.t)
    (w' : World) :
  analyze_field (module_globals n) c field w = (inr resp, w') ->
  slash_free (farmer_id field) = true ->
  (forall k, slash_free (clock c k) = true) ->
  exists name report_path results images,
    AnalysisResponse.report_url resp = "/reports/" +:+ name /\
    generate_report c results (farmer_id field, crop field) images report_path
    = inr tt /\
    forall w2,
      settings w2 = settings w ->
      is_Some (files w2 !! report_path) ->
      get_report (module_globals n) name w2 = (inr (Report report_path), w2).
Proof.
  intros Hrun Hid Hclock.
  apply analyze_field_completed in Hrun as (results & heat & chart & doc & Hrun).
  cbv zeta in Hrun.
  destruct Hrun as (_ & Hreport & _ & _ & _ & _ & _ & Hurl & _).
  unfold artefact in *.
  rewrite path_name_joinpath in Hurl
    by (apply leaf_slash_free; auto).
  eexists. eexists. exists results, (heat, chart).
  split; [exact Hurl |]. split; [exact Hreport |].
  intros w2 Hcfg Hfile. rewrite get_report_run. cbv zeta. rewrite Hcfg.
  by rewrite (bool_decide_eq_true_2 _ Hfile).
Qed.

Lemma steady_analysis :
  exists resp w',
    analyze_field (module_globals "__main__") steady Fixtures.TEST_FIELD
      Fixtures.started = (inr resp, w').
Proof. eexists. eexists. vm_compute. reflexivity. Qed.

Lemma report_url_resolves_witness :
  exists name report_path,
    forall w2,
      settings w2 = settings Fixtures.started ->
      is_Some (files w2 !! report_path) ->
      get_report (module_globals "__main__") name w2
      = (inr (Report report_path), w2).
Proof.
  destruct steady_analysis as (resp & w' & Hrun).
  destruct (report_url_resolves _ _ _ _ _ _ Hrun)
    as (name & report_path & _ & _ & _ & _ & Hget);
    [reflexivity | intros k; reflexivity |].
  exists name, report_path. exact Hget.
Defined.

(** ** An insured amount of zero *)

(** X11: an [insured_amount] of zero is treated like a missing one: the
    estimator is never called, a completed analysis has no
    [estimated_claim], and nothing is sent to the insurance webhook. *)
Theorem zero_insured_amount_is_uninsured (n : string) (c : Collab)
    (field : FieldRegistration) (w : World) (x : Q) :
  insured_amount field = Some x -> (x == 0)%Q ->
  (forall resp w',
     analyze_field (module_globals n) c field w = (inr resp, w') ->
     AnalysisResponse.estimated_claim resp = None /\
     webhooks (trace w') = webhooks (trace w)) /\
  invocations "ClaimEstimator.calculate_claim"
    (trace (snd (analyze_field (module_globals n) c field w)))
  = invocations "ClaimEstimator.calculate_claim" (trace w).
Proof.
  intros Hins Hzero.
  assert (Hfalsy : truthy x = false).
  { unfold truthy. apply negb_false_iff. by apply Qeq_bool_iff. }
  split.
  - intros resp w' Hrun.
    apply analyze_field_inr in Hrun as (Hsent & Hclaim & _).
    rewrite Hins in Hsent. cbn [truthy_opt] in Hsent.
    rewrite Hfalsy in Hsent. cbn [andb] in Hsent.
    rewrite app_nil_r in Hsent. split; [| exact Hsent].
    destruct (AnalysisResponse.estimated_claim resp) as [amount |]; [| done].
    destruct Hclaim as (insured & Hsome & Htruthy & _). congruence.
  - assert (Hframe : preserves
              (fun w0 => invocations "ClaimEstimator.calculate_claim" (trace w0))
              (analyze_field (module_globals n) c field)).
    { unfold analyze_field, analyze_field_try, chart_report_claim.
      rewrite Hins. cbn [truthy_opt]. rewrite Hfalsy. cbn [andb]. frame. }
    apply Hframe.
Qed.

Lemma zero_insured_analysis :
  exists resp w',
    analyze_field (module_globals "__main__")
      (Fixtures.collaborators Fixtures.both_images 50) ZERO_INSURED
      Fixtures.started = (inr resp, w').
Proof. eexists. eexists. vm_compute. reflexivity. Qed.

Lemma zero_insured_amount_is_uninsured_witness :
  exists resp, AnalysisResponse.estimated_claim resp = None.
Proof.
  destruct zero_insured_analysis as (resp & w' & Hrun).
  destruct (zero_insured_amount_is_uninsured "__main__"
              (Fixtures.collaborators Fixtures.both_images 50) ZERO_INSURED
              Fixtures.started 0%Q eq_refl) as [Hdone _];
    [reflexivity |].
  exists resp. exact (proj1 (Hdone resp w' Hrun)).
Defined.

(** ** Which request touches what *)


Ltac unchanged ::=
  intros; cbn;
  first [ reflexivity
        | rewrite invocations_app; cbn; lia
        | rewrite webhooks_app; cbn; apply app_nil_r ].



(** X13: only an analysis can add an analysis document, write or delete
    a file or call the insurance webhook; only a registration can add a
    field document; only start-up can create directories or set the
    database client.  In particular an analysis neither needs nor creates
    a registration. *)
Theorem requests_keep_to_their_data (g : gset string) (c : Collab)
    (rq : Request) (w : World) :
  let w' := snd (serve g c rq w) in
  (is_analysis rq = false ->
   analyses w' = analyses w /\ files w' = files w /\
   webhooks (trace w') = webhooks (trace w)) /\
  (is_registration rq = false -> fields w' = fields w) /\
  (is_startup rq = false -> dirs w' = dirs w /\ db_client w' = db_client w).
Proof.
  cbv zeta.
  assert (Hanalyses : is_analysis rq = false ->
            preserves analyses (serve g c rq)).
  { intros Hrq. destruct rq; try discriminate Hrq; cbn [serve];
      unfold root, register_field, get_field_info, get_field_analyses,
        get_report, get_dashboard_stats; frame. }
  assert (Hfiles : is_analysis rq = false -> preserves files (serve g c rq)).
  { intros Hrq. destruct rq; try discriminate Hrq; cbn [serve];
      unfold root, register_field, get_field_info, get_field_analyses,
        get_report, get_dashboard_stats; frame. }
  assert (Hhooks : is_analysis rq = false ->
            preserves (fun w0 => webhooks (trace w0)) (serve g c rq)).
  { intros Hrq. destruct rq; try discriminate Hrq; cbn [serve];
      unfold root, register_field, get_field_info, get_field_analyses,
        get_report, get_dashboard_stats; frame. }
  assert (Hfields : is_registration rq = false ->
            preserves fields (serve g c rq)).
  { intros Hrq. destruct rq; try discriminate Hrq; cbn [serve];
      unfold root, analyze_field, analyze_field_try, chart_report_claim,
        get_field_info, get_field_analyses, get_report, get_dashboard_stats;
      frame. }
  assert (Hdirs : is_startup rq = false -> preserves dirs (serve g c rq)).
  { intros Hrq. destruct rq; try discriminate Hrq; cbn [serve];
      unfold root, register_field, analyze_field, analyze_field_try,
        chart_report_claim, get_field_info, get_field_analyses, get_report,
        get_dashboard_stats; frame. }
  assert (Hclient : is_startup rq = false ->
            preserves db_client (serve g c rq)).
  { intros Hrq. destruct rq; try discriminate Hrq; cbn [serve];
      unfold root, register_field, analyze_field, analyze_field_try,
        chart_report_claim, get_field_info, get_field_analyses, get_report,
        get_dashboard_stats; frame. }
  split; [| split]; intros Hrq.
  - repeat split;
      [exact (Hanalyses Hrq w) | exact (Hfiles Hrq w) | exact (Hhooks Hrq w)].
  - exact (Hfields Hrq w).
  - split; [exact (Hdirs Hrq w) | exact (Hclient Hrq w)].
Qed.

Lemma requests_keep_to_their_data_witness :
  fields (snd (serve served_globals
                 (Fixtures.collaborators Fixtures.both_images 50)
                 (PostAnalyzeField Fixtures.TEST_FIELD) Fixtures.started))
  = fields Fixtures.started.
Proof.
  apply (requests_keep_to_their_data served_globals
           (Fixtures.collaborators Fixtures.both_images 50)
           (PostAnalyzeField Fixtures.TEST_FIELD) Fixtures.started).
  reflexivity.
Defined.

(** ** Start-up *)

Lemma startup_event_run (c : Collab) (w : World) :
  startup_event c w =
  let w1 := with_trace (trace w ++ [Invoke "admin.command"])
              (with_client true w) in
  match ping c with
  | inl e => (inl e, w1)
  | inr _ =>
      (inr tt,
       with_dirs ({[ STATIC_DIR (settings w) ]} ∪
                  ({[ REPORTS_DIR (settings w) ]} ∪
                   ({[ TEMP_DIR (settings w) ]} ∪ dirs w))) w1)
  end.
Proof.
  unfold startup_event, connect_db, create_directories, mkdir_exist_ok,
    try_except, bind, modify, call, raise, get_settings, gets. cbn.
  destruct (ping c) as [e | []]; reflexivity.
Qed.

(** X14: when the ping of [Database.connect_db] fails, [startup_event]
    raises that very exception and stops before creating directories, but
    the client attribute is already set. *)
Theorem failed_ping_aborts_startup (c : Collab) (w : World) (e : Exc) :
  ping c = inl e ->
  fst (startup_event c w) = inl e /\
  db_client (snd (startup_event c w)) = true /\
  dirs (snd (startup_event c w)) = dirs w /\
  files (snd (startup_event c w)) = files w.
Proof.
  intros Hping. rewrite startup_event_run, Hping. repeat split.
Qed.

Lemma failed_ping_aborts_startup_witness :
  fst (startup_event offline (boot ∅ "/srv/farmview"))
  = inl (Raised "ServerSelectionTimeoutError").
Proof.
  apply (failed_ping_aborts_startup offline (boot ∅ "/srv/farmview")).
  reflexivity.
Defined.

Lemma boot_dirs (environ : gmap string string) (base : string) :
  dirs (boot environ base)
  = {[ Py.joinpath base "static" ]} ∪
    ({[ Py.joinpath base "reports" ]} ∪
     ({[ Py.joinpath base "temp" ]} ∪ {[ base ]})).
Proof. reflexivity. Qed.

(** X15: the three directories exist as soon as [config] is imported, so
    the [create_directories] call of [startup_event] adds nothing, whatever
    the ping answers. *)
Theorem startup_after_import_creates_nothing (environ : gmap string string)
    (base : string) (c : Collab) :
  let w := boot environ base in
  TEMP_DIR (settings w) ∈ dirs w /\
  REPORTS_DIR (settings w) ∈ dirs w /\
  STATIC_DIR (settings w) ∈ dirs w /\
  dirs (snd (startup_event c w)) = dirs w /\
  files (snd (startup_event c w)) = files w.
Proof.
  cbv zeta. rewrite startup_event_run. cbv zeta.
  rewrite boot_settings, boot_dirs. cbn [TEMP_DIR REPORTS_DIR STATIC_DIR Config.load].
  split; [set_solver |]. split; [set_solver |]. split; [set_solver |].
  destruct (ping c) as [e | []]; cbn; split; try reflexivity.
  apply set_eq. intros x. rewrite !elem_of_union, !elem_of_singleton. tauto.
Qed.

(** ** Queries that must agree *)







(** ** The test script against the served application *)


Lemma analysis_test_fails_when_served (proceed : string) (c : Collab)
    (field : FieldRegistration) (w : World) (analysis : option Response) :
  (forall resp,
     analysis = Some resp ->
     status_code resp
     = http_status (fst (analyze_field served_globals c field w))) ->
  test_analyze_field proceed analysis = false.
Proof.
  intros Hserved. unfold test_analyze_field.
  destruct (negb (String.eqb (lower proceed) "y")); [reflexivity |].
  destruct analysis as [resp |]; [| reflexivity].
  cbn [ok]. rewrite (Hserved resp eq_refl).
  destruct (served_run_fails c field w) as (e & w' & ->). reflexivity.
Qed.

(** X17: run against the served application, [run_all_tests] never reaches
    "All tests passed": either it stops after the health check, or the
    registration fails, or the analysis test is counted as failed, because
    the user declined it or because the served handler does not answer
    200. *)
Theorem test_suite_never_all_passed
    (health register field_info analysis stats : option Response)
    (proceed : string) (c : Collab) (field : FieldRegistration) (w : World) :
  (forall resp,
     register = Some resp -> status_code resp = 200%Z ->
     exists message field_id area_hectares,
       json resp = [("message", message); ("field_id", field_id);
                    ("area_hectares", area_hectares)]) ->
  (forall resp,
     analysis = Some resp ->
     status_code resp
     = http_status (fst (analyze_field served_globals c field w))) ->
  match run_all_tests health register field_info analysis stats proceed with
  | Some results => all_passed results = false
  | None => test_health_check health = false
  end.
Proof.
  intros Hbody Hserved.
  pose proof (analysis_test_fails_when_served proceed c field w analysis Hserved)
    as Hfail.
  unfold run_all_tests.
  destruct (test_health_check health) eqn:Hhealth; cbn [negb]; [| reflexivity].
  unfold test_register_field.
  destruct register as [reg |]; [| by destruct (test_dashboard_stats stats)].
  destruct (Z.eqb_spec (status_code reg) 200) as [Hok | Hko];
    [| by destruct (test_dashboard_stats stats)].
  rewrite Hfail.
  destruct (Hbody reg eq_refl Hok) as (message & field_id & area & ->).
  cbn [truthy_body andb].
  destruct (test_get_field field_info), (test_dashboard_stats stats);
    reflexivity.
Qed.

Lemma test_suite_never_all_passed_witness :
  exists results,
    run_all_tests (http_200 [("status", "healthy")])
      (http_200 [("message", "Field registered successfully");
                 ("field_id", "65a1f0c2e4b0a1b2c3d4e5f7");
                 ("area_hectares", "2.0")])
      (http_200 [("crop", "Rice")])
      (Some {| status_code :=
                 http_status
                   (fst (analyze_field served_globals
                           (Fixtures.collaborators Fixtures.both_images 50)
                           Fixtures.TEST_FIELD Fixtures.started));
               json := [] |})
      (http_200 [("total_fields", "1")]) "Y" = Some results /\
    all_passed results = false.
Proof.
  eexists. split; [reflexivity |].
  pose proof (test_suite_never_all_passed
                (http_200 [("status", "healthy")])
                (http_200 [("message", "Field registered successfully");
                           ("field_id", "65a1f0c2e4b0a1b2c3d4e5f7");
                           ("area_hectares", "2.0")])
                (http_200 [("crop", "Rice")])
                (Some {| status_code :=
                           http_status
                             (fst (analyze_field served_globals
                                     (Fixtures.collaborators
                                        Fixtures.both_images 50)
                                     Fixtures.TEST_FIELD Fixtures.started));
                         json := [] |})
                (http_200 [("total_fields", "1")]) "Y"
                (Fixtures.collaborators Fixtures.both_images 50)
                Fixtures.TEST_FIELD Fixtures.started) as Hnever.
  apply Hnever.
  - intros resp [= <-] _. eauto.
  - intros resp [= <-]. reflexivity.
Defined.

(** ** From the created directories to the processor *)




(** ** A failing webhook *)

Ltac run_forward H :=
  repeat (
    cbn [fst snd files dirs db_client fields analyses trace ticks settings
         with_files with_dirs with_client with_fields with_analyses with_trace
         with_ticks current_path baseline_path analysis_results
         damage_heatmap_path truthy_opt andb] in H;
    match type of H with
    | context [if ?b then _ else _] => destruct b eqn:?
    | context [match ?x with inl _ => _ | inr _ => _ end] => destruct x eqn:?
    | context [match ?x with Some _ => _ | None => _ end] => destruct x eqn:?
    end).

Lemma chart_report_claim_failure (n : string) (c : Collab)
    (field : FieldRegistration) (l : Locals) (w1 : World) (e : Exc)
    (w' : World) :
  chart_report_claim (module_globals n) c field l w1 = (inl e, w') ->
  webhooks (trace w') <> webhooks (trace w1) ->
  exists doc,
    analyses w' = (analyses w1 ++ [doc])%list /\
    AnalysisData.farmer_id doc = farmer_id field.
Proof.
  unfold chart_report_claim, create_analysis, get_database, send, unlink.
  resolve_globals.
  unfold bind, call, ret, raise, now, get_settings, gets, modify.
  intros H Hsent.
  run_forward H.
  all: try discriminate H.
  all: injection H as <- <-.
  all: cbn [files dirs db_client fields analyses trace ticks settings
            with_files with_dirs with_client with_fields with_analyses
            with_trace with_ticks] in *.
  all: first
         [ exfalso; apply Hsent; rewrite ?webhooks_app; cbn [webhooks];
           rewrite ?app_nil_r; reflexivity
         | eexists; split; reflexivity ].
Qed.

Lemma fetch_detect_heatmap_quiet (g : gset string) (c : Collab)
    (field : FieldRegistration) :
  preserves (fun w0 => webhooks (trace w0)) (fetch_detect_heatmap g c field) /\
  preserves analyses (fetch_detect_heatmap g c field).
Proof. split; unfold fetch_detect_heatmap; frame. Qed.

(** X19: when an analysis fails after the insurance webhook was called,
    the analysis document is already in the collection: a failing webhook
    turns a stored analysis into a 500. *)
Theorem webhook_failure_comes_after_save (n : string) (c : Collab)
    (field : FieldRegistration) (w : World) (e : Exc) (w' : World) :
  analyze_field (module_globals n) c field w = (inl e, w') ->
  webhooks (trace w') <> webhooks (trace w) ->
  exists doc,
    analyses w' = (analyses w ++ [doc])%list /\
    AnalysisData.farmer_id doc = farmer_id field.
Proof.
  rewrite analyze_field_run. unfold analyze_field_try, bind.
  destruct (fetch_detect_heatmap_quiet (module_globals n) c field)
    as [Hquiet Hdocs].
  specialize (Hquiet w). specialize (Hdocs w).
  destruct (fetch_detect_heatmap (module_globals n) c field w)
    as [[e1 | l] w1]; cbn [snd] in *.
  - intros [= _ <-] Hsent. by rewrite Hquiet in Hsent.
  - destruct (chart_report_claim (module_globals n) c field l w1)
      as [[e2 | resp] w2] eqn:Hpost; [| discriminate].
    intros [= _ <-] Hsent. rewrite <- Hquiet in Hsent.
    destruct (chart_report_claim_failure _ _ _ _ _ _ _ Hpost Hsent)
      as (doc & Hsaved & Hid).
    exists doc. by rewrite Hsaved, Hdocs.
Qed.

(** ** Sample runs of the properties above *)



Lemma unreachable_insurer_analysis :
  exists e w',
    analyze_field (module_globals "__main__") unreachable_insurer
      Fixtures.TEST_FIELD Fixtures.started = (inl e, w') /\
    webhooks (trace w') <> webhooks (trace Fixtures.started).
Proof.
  eexists. eexists. split; [vm_compute; reflexivity |].
  vm_compute. discriminate.
Qed.

Lemma webhook_failure_comes_after_save_witness :
  exists w' doc, analyses w' = (analyses Fixtures.started ++ [doc])%list.
Proof.
  destruct unreachable_insurer_analysis as (e & w' & Hrun & Hsent).
  destruct (webhook_failure_comes_after_save _ _ _ _ _ _ Hrun Hsent)
    as (doc & Hsaved & _).
  exists w', doc. exact Hsaved.
Defined.
